(** * paperdownload.py: a shallow embedding of [SciHubDownloader]

    The program reads a list of DOIs, asks each Sci-Hub mirror in turn for
    the page of a DOI, extracts the address of the embedded PDF, and streams
    it to disk.  The embedding follows the source method by method.

    - A Python [str] is a sequence of Unicode code points: [list N].
    - [bytes] is [list Byte.byte].
    - Calls into requests, lxml, the file system and the built-ins [int]
      and float formatting are the fields of the class [Lib]; the program
      is modelled over an arbitrary instance of it.
    - Effects are explicit: a state (standard output, errlog.txt, the files
      written, the outside world) is threaded through a state-and-exception
      monad [M]. *)

From Stdlib Require Import String Ascii NArith ZArith List Bool Lia DecimalString.
From stdpp Require Import gmap list.

Local Open Scope N_scope.

(** ** Python strings *)

Abbreviation char := N (only parsing).
Abbreviation str := (list N) (only parsing).
Abbreviation bytes := (list Byte.byte) (only parsing).

(** A string literal of the source, as code points. *)
Definition lit (s : string) : str :=
  List.map N_of_ascii (list_ascii_of_string s).
Arguments lit s%_string : simpl never.

(** [s.startswith(prefix)] *)
Fixpoint startswith (s prefix : str) {struct prefix} : bool :=
  match prefix with
  | [] => true
  | p :: prefix' =>
      match s with
      | [] => false
      | c :: s' => (c =? p) && startswith s' prefix'
      end
  end.

(** [str.isspace] on one character: the code points CPython's
    [_PyUnicode_IsWhitespace] accepts. *)
Definition isspace (c : char) : bool :=
  ((9 <=? c) && (c <=? 13)) || ((28 <=? c) && (c <=? 32))
  || (c =? 133) || (c =? 160) || (c =? 5760)
  || ((8192 <=? c) && (c <=? 8202))
  || (c =? 8232) || (c =? 8233) || (c =? 8239) || (c =? 8287) || (c =? 12288).

Fixpoint lstrip (s : str) : str :=
  match s with
  | [] => []
  | c :: s' => if isspace c then lstrip s' else s
  end.

Definition rstrip (s : str) : str := rev (lstrip (rev s)).

(** [s.strip()] *)
Definition strip (s : str) : str := rstrip (lstrip s).

(** Reading in text mode with the default [newline=None]: the sequences
    CR LF and a lone CR both reach the program as LF. *)
Fixpoint universal_newlines (raw : str) : str :=
  match raw with
  | [] => []
  | c :: rest =>
      if c =? 13 then
        10 :: match rest with
              | [] => []
              | c' :: rest' =>
                  if c' =? 10 then universal_newlines rest'
                  else universal_newlines rest
              end
      else c :: universal_newlines rest
  end.

(** [f.readlines()]: the text cut after every LF, each line keeping its
    LF; a last line without LF is kept, an empty rest is not a line.
    [cur] is the line being read, most recent character first. *)
Fixpoint readlines_from (cur text : str) : list str :=
  match text with
  | [] => match cur with [] => [] | _ => [rev cur] end
  | c :: rest =>
      if c =? 10 then rev (c :: cur) :: readlines_from [] rest
      else readlines_from (c :: cur) rest
  end.

Definition readlines (text : str) : list str := readlines_from [] text.

(** ** Regular expression of [sanitize_filename]

    The pattern is a raw string holding one character class (an opening
    bracket, the class body, a closing bracket).  Inside a class a
    backslash followed by a punctuation character stands for that
    character; [class_members] reads the class body that way (the body of
    the source holds no range and no negation). *)
Fixpoint class_members (body : str) : list char :=
  match body with
  | [] => []
  | c :: rest =>
      if c =? 92 then
        match rest with
        | [] => []
        | e :: rest' => e :: class_members rest'
        end
      else c :: class_members rest
  end.

(** The class body as written in the source, between the brackets:
    backslash, slash, colon, star, question mark, double quote (34),
    less-than, greater-than, bar. *)
Definition sanitize_class_body : str := lit "\/:*?" ++ [34] ++ lit "<>|".

Definition in_class (cls : list char) (c : char) : bool :=
  existsb (N.eqb c) cls.

(** [re.sub(pattern, repl, s)] for a pattern that is one character class:
    every character of the class is replaced, the others are copied. *)
Fixpoint re_sub_class (cls : list char) (repl s : str) : str :=
  match s with
  | [] => []
  | c :: s' =>
      (if in_class cls c then repl else [c]) ++ re_sub_class cls repl s'
  end.

(** ** Pure methods of [SciHubDownloader] *)

(** [ensure_scheme(self, url)] *)
Definition ensure_scheme (url : str) : str :=
  if negb (startswith url (lit "http")) then lit "https:" ++ url else url.

(** [sanitize_filename(self, doi)] *)
Definition sanitize_filename (doi : str) : str :=
  re_sub_class (class_members sanitize_class_body) (lit "_") doi ++ lit ".pdf".

(** Decimal rendering of an integer in an f-string. *)
Definition dec (z : Z) : str := lit (NilZero.string_of_int (Z.to_int z)).
Arguments dec z%_Z : simpl never.

(** ** Exceptions and library objects *)

(** The classes of [Exception] the program tells apart: [get_file_size]
    catches [KeyError] only, [download] catches every [Exception]. *)
Inductive ExcClass : Type :=
| KeyError
| ValueError
| OverflowError
| OtherException.

(** An exception: its class and [str(e)].  These are the instances of
    [Exception], which is what the [except] clause of [download] names;
    [KeyboardInterrupt] and [SystemExit] are outside the model. *)
Record exn : Type := Exc { exc_class : ExcClass; exc_str : str }.

Definition exc_class_eqb (a b : ExcClass) : bool :=
  match a, b with
  | KeyError, KeyError | ValueError, ValueError
  | OverflowError, OverflowError | OtherException, OtherException => true
  | _, _ => false
  end.

Inductive Result (A : Type) : Type :=
| Ok (a : A)
| Raise (e : exn).
Arguments Ok {A} a.
Arguments Raise {A} e.

(** A [requests.Response], by what the program reads of it. *)
Record Response : Type := {
  status_code : Z;
  (** [r.content] *)
  content : bytes;
  (** [r.headers[key]]; [None] stands for [KeyError] *)
  headers : str -> option str;
  (** [r.iter_content(chunk_size)]: the chunks it yields, then the
      exception that ends the iteration early, if any *)
  iter_content : nat -> list bytes * option exn
}.

(** The libraries and the outside world the program calls into. *)
Class Lib : Type := {
  (** the state of the network and of the file system outside the files
      the program writes *)
  World : Type;
  (** a parsed document ([lxml.etree] element) *)
  Root : Type;
  (** a proxy configuration *)
  Proxies : Type;
  (** [session.get(url=..., stream=..., proxies=...)], retries included *)
  session_get : str -> bool -> option Proxies -> World -> Result Response * World;
  (** [etree.HTML(content)]; [Ok None] when it yields no document *)
  etree_HTML : bytes -> Result (option Root);
  (** [root.xpath(expr)] for an expression selecting attribute values *)
  root_xpath : Root -> str -> Result (list str);
  (** [int(s)]; [None] stands for [ValueError], with the text below *)
  int_of_str : str -> option Z;
  int_error_str : str -> str;
  (** the f-string field [content_length/1024:.2f]; [None] stands for the
      [OverflowError] of a quotient too large for a float *)
  format_kb : Z -> option str;
  (** [os.path.join] *)
  os_path_join : str -> str -> str;
  (** [open(path, "wb")]: the exception it raises, if any *)
  open_wb_error : str -> World -> option exn;
  (** [open(path, 'r')] and decoding: the characters of the file *)
  open_read : str -> World -> Result str
}.

(** How one pass through the body of the mirror loop leaves it, by the
    statement taken. *)
Inductive Exit : Type :=
| BadPageStatus   (* continue, after the page fetch *)
| Unparsable      (* return, no document *)
| NoLink          (* return, no match of the XPath expression *)
| BadFileStatus   (* return, after the file fetch *)
| Downloaded.     (* return, after the file is written *)

Definition is_continue (x : Exit) : bool :=
  match x with BadPageStatus => true | _ => false end.

(** [create_session_with_retry]: the arguments handed to urllib3's
    [Retry], and the prefixes the adapter is mounted on.  The retry loop
    itself runs inside urllib3. *)
Record Retry : Type := {
  retry_total : Z;
  retry_read : Z;
  retry_connect : Z;
  (** the decimal literal, as numerator and denominator *)
  retry_backoff_factor : Z * Z;
  retry_status_forcelist : list Z
}.

Definition create_session_with_retry
    (retries : Z) (backoff_factor : Z * Z) (status_forcelist : list Z)
    : list (str * Retry) :=
  let retry := {| retry_total := retries; retry_read := retries;
                  retry_connect := retries;
                  retry_backoff_factor := backoff_factor;
                  retry_status_forcelist := status_forcelist |} in
  [(lit "http://", retry); (lit "https://", retry)].

Definition default_session : list (str * Retry) :=
  create_session_with_retry 3 (3, 10)%Z [500; 502; 504]%Z.

Section Downloader.
Context `{L : Lib}.

(** ** State and monad *)

Record State : Type := {
  (** the argument of each [print], oldest first *)
  stdout : list str;
  (** the text of errlog.txt *)
  errlog : str;
  (** the files opened with "wb", by path *)
  files : gmap str bytes;
  world : World
}.

Definition M (A : Type) : Type := State -> Result A * State.

Definition ret {A} (a : A) : M A := fun s => (Ok a, s).

Definition bind {A B} (m : M A) (k : A -> M B) : M B :=
  fun s =>
    match m s with
    | (Ok a, s') => k a s'
    | (Raise e, s') => (Raise e, s')
    end.

Definition raise {A} (e : exn) : M A := fun s => (Raise e, s).

#[global] Instance M_ret : MRet M := @ret.
#[global] Instance M_bind : MBind M := fun A B k m => bind m k.

(** A pure library call that may raise. *)
Definition lift {A} (r : Result A) : M A := fun s => (r, s).

(** [try: body except Exception as e: handler e] *)
Definition try_except {A} (body : M A) (handler : exn -> M A) : M A :=
  fun s =>
    match body s with
    | (Ok a, s') => (Ok a, s')
    | (Raise e, s') => handler e s'
    end.

(** [try: body except cls: handler] *)
Definition try_except_class {A} (body : M A) (cls : ExcClass) (handler : M A)
    : M A :=
  fun s =>
    match body s with
    | (Ok a, s') => (Ok a, s')
    | (Raise e, s') =>
        if exc_class_eqb (exc_class e) cls then handler s' else (Raise e, s')
    end.

(** State updates. *)
Definition add_stdout (msg : str) (s : State) : State :=
  {| stdout := stdout s ++ [msg]; errlog := errlog s; files := files s;
     world := world s |}.

Definition add_errlog (text : str) (s : State) : State :=
  {| stdout := stdout s; errlog := errlog s ++ text; files := files s;
     world := world s |}.

Definition set_files (fs : gmap str bytes) (s : State) : State :=
  {| stdout := stdout s; errlog := errlog s; files := fs; world := world s |}.

Definition set_world (w : World) (s : State) : State :=
  {| stdout := stdout s; errlog := errlog s; files := files s; world := w |}.

(** [print(msg)]; writing to standard output is taken to succeed. *)
Definition print (msg : str) : M unit :=
  fun s => (Ok tt, add_stdout msg s).

(** [with open(errlog.txt, a) as err_log: err_log.write(text)]; the
    append is taken to succeed.  The log is kept apart from [files]: the
    paths written by [download] all end in .pdf. *)
Definition err_log_write (text : str) : M unit :=
  fun s => (Ok tt, add_errlog text s).

(** [self.session.get(url=url, stream=stream, proxies=proxies)] *)
Definition get (url : str) (stream : bool) (proxies : option Proxies)
    : M Response :=
  fun s =>
    let (r, w) := session_get url stream proxies (world s) in
    (r, set_world w s).

(** [open(file_path, "wb")]: the file is created or emptied. *)
Definition open_wb (file_path : str) : M unit :=
  fun s =>
    match open_wb_error file_path (world s) with
    | Some e => (Raise e, s)
    | None => (Ok tt, set_files (<[file_path := []]> (files s)) s)
    end.

(** [file.write(chunk)] on the file opened at [file_path] *)
Definition file_write (file_path : str) (chunk : bytes) : M unit :=
  fun s =>
    (Ok tt, set_files (alter (fun data => data ++ chunk) file_path (files s)) s).

(** ** The downloader *)

Record SciHubDownloader : Type := {
  doi_list_file : str;
  download_path : str;
  proxy : option Proxies;
  xpath : str;
  scihub_urls : list str;
  doilist : list str
}.

(** [load_doi_list(self)]: raises what [open] raises. *)
Definition load_doi_list (doi_list_file : str) : M (list str) :=
  raw ← (fun s => (open_read doi_list_file (world s), s));
  mret (List.map strip (readlines (universal_newlines raw))).

(** The default of the [xpath] argument (34 is the double quote). *)
Definition default_xpath : str :=
  lit "//embed[@type=" ++ [34] ++ lit "application/pdf" ++ [34] ++ lit "]/@src".

Definition default_scihub_urls : list str :=
  [lit "https://sci-hub.se/"; lit "https://sci-hub.st/"].

(** [req_file.headers['content-length']] *)
Definition content_length_header (req_file : Response) : M str :=
  match headers req_file (lit "content-length") with
  | Some v => mret v
  | None => raise (Exc KeyError ([39] ++ lit "content-length" ++ [39]))
  end.

(** [int(v)] *)
Definition py_int (v : str) : M Z :=
  match int_of_str v with
  | Some n => mret n
  | None => raise (Exc ValueError (int_error_str v))
  end.

(** The f-string field [content_length/1024:.2f] *)
Definition size_in_kb (content_length : Z) : M str :=
  match format_kb content_length with
  | Some t => mret t
  | None =>
      raise (Exc OverflowError (lit "integer division result too large for a float"))
  end.

(** [get_file_size(self, req_file, index, total)] *)
Definition get_file_size (req_file : Response) (index total : nat)
    : M (option Z) :=
  try_except_class
    (v ← content_length_header req_file;
     content_length ← py_int v;
     kb ← size_in_kb content_length;
     print (lit "Downloading paper " ++ dec (Z.of_nat (index + 1)) ++ lit "/"
            ++ dec (Z.of_nat total) ++ lit ", size: " ++ kb ++ lit " KB");;
     mret (Some content_length))
    KeyError
    (print (lit "Downloading paper " ++ dec (Z.of_nat (index + 1)) ++ lit "/"
            ++ dec (Z.of_nat total) ++ lit ", size: unknown");;
     mret None).

(** The loop over [response.iter_content]: a chunk that is not empty is
    written and counted on the progress bar [pbar]. *)
Fixpoint write_chunks (file_path : str) (chunks : list bytes) (pbar : nat)
    : M nat :=
  match chunks with
  | [] => mret pbar
  | chunk :: rest =>
      match chunk with
      | [] => write_chunks file_path rest pbar
      | _ :: _ =>
          file_write file_path chunk;;
          write_chunks file_path rest (pbar + length chunk)%nat
      end
  end.

(** The [with closing(req_file)] block of [download]. *)
Definition save_response (self : SciHubDownloader) (req_file : Response)
    (file_name : str) : M unit :=
  let chunk_size := 1024%nat in
  let file_path := os_path_join (download_path self) file_name in
  open_wb file_path;;
  let (chunks, err) := iter_content req_file chunk_size in
  write_chunks file_path chunks 0%nat;;
  match err with
  | Some e => raise e
  | None => mret tt
  end.

(** The body of the [try] in [download], for one mirror. *)
Definition attempt (self : SciHubDownloader) (index : nat) (doi scihub_url : str)
    : M Exit :=
  req ← get (scihub_url ++ doi) false (proxy self);
  if negb (status_code req =? 200)%Z then
    print (lit "Error downloading " ++ doi
           ++ lit ": Failed to fetch the webpage from " ++ scihub_url
           ++ lit ", status code: " ++ dec (status_code req));;
    mret BadPageStatus
  else
    root ← lift (etree_HTML (content req));
    match root with
    | None =>
        print (lit "Error downloading " ++ doi ++ lit ": Failed to parse HTML content");;
        mret Unparsable
    | Some root =>
        element_download_link ← lift (root_xpath root (xpath self));
        match element_download_link with
        | [] =>
            print (lit "Error downloading " ++ doi ++ lit ": No download link found");;
            mret NoLink
        | first :: _ =>
            let element_download_link := ensure_scheme first in
            req_file ← get element_download_link true (proxy self);
            if negb (status_code req_file =? 200)%Z then
              print (lit "Error downloading " ++ doi
                     ++ lit ": Failed to retrieve file, status code: "
                     ++ dec (status_code req_file));;
              mret BadFileStatus
            else
              content_length ← get_file_size req_file index (length (doilist self));
              let file_name := sanitize_filename doi in
              save_response self req_file file_name;;
              print (lit "Downloaded " ++ file_name ++ lit " successfully!");;
              mret Downloaded
        end
    end.

(** The [except Exception as e] clause of [download]. *)
Definition on_exception (doi scihub_url : str) (e : exn) : M unit :=
  print (lit "Error downloading " ++ doi ++ lit " from " ++ scihub_url
         ++ lit ": " ++ exc_str e);;
  err_log_write (doi ++ lit " from " ++ scihub_url ++ lit " - " ++ exc_str e
                 ++ [10]).

(** The [for] loop of [download] over the mirrors still to try, and the
    [print] after it. *)
Fixpoint download_from (self : SciHubDownloader) (index : nat) (doi : str)
    (urls : list str) : M unit :=
  match urls with
  | [] =>
      print (lit "Failed to download " ++ doi
             ++ lit " after trying all Sci-Hub URLs.")
  | scihub_url :: rest =>
      x ← try_except
            (x ← attempt self index doi scihub_url; mret (Some x))
            (fun e => on_exception doi scihub_url e;; mret None);
      match x with
      | Some x =>
          if is_continue x then download_from self index doi rest
          else mret tt
      | None => download_from self index doi rest
      end
  end.

(** [download(self, index, doi)] *)
Definition download (self : SciHubDownloader) (index : nat) (doi : str)
    : M unit :=
  download_from self index doi (scihub_urls self).

(** The loop of [run] over [enumerate(self.doilist)], from [index] on. *)
Fixpoint run_from (self : SciHubDownloader) (index : nat) (dois : list str)
    : M unit :=
  match dois with
  | [] => mret tt
  | doi :: rest =>
      print (lit "Starting download for DOI: " ++ doi);;
      download self index doi;;
      run_from self (S index) rest
  end.

(** [run(self)] *)
Definition run (self : SciHubDownloader) : M unit :=
  run_from self 0%nat (doilist self).

(** ** Which way each mirror was left

    [endings] runs the loop of [download] as [download_from] does and
    records, for every mirror it reaches, how the pass for that mirror
    ended: by one of the five exits, or in the [except] clause. *)
Inductive Ending : Type :=
| Exited (x : Exit)
| Raised (e : exn).

Fixpoint endings (self : SciHubDownloader) (index : nat) (doi : str)
    (urls : list str) (s : State) : list Ending :=
  match urls with
  | [] => []
  | scihub_url :: rest =>
      match attempt self index doi scihub_url s with
      | (Ok x, s') =>
          Exited x ::
            (if is_continue x then endings self index doi rest s' else [])
      | (Raise e, s') =>
          Raised e ::
            endings self index doi rest (snd (on_exception doi scihub_url e s'))
      end
  end.

(** The pass went on to the next mirror: [continue], or the handler. *)
Definition goes_on (x : Ending) : bool :=
  match x with
  | Exited x => is_continue x
  | Raised _ => true
  end.

(** The last line [download] can print. *)
Definition failed_message (doi : str) : str :=
  lit "Failed to download " ++ doi ++ lit " after trying all Sci-Hub URLs.".

End Downloader.

(** ** The constructor and the script

    [__init__] and the block under [if __name__ == "__main__"] also call
    into [os]: these calls are the fields of [OsLib]. *)
Class OsLib `{L : Lib} : Type := {
  (** [os.path.exists(path)] *)
  os_path_exists : str -> World -> bool;
  (** [os.makedirs(path)] *)
  os_makedirs : str -> World -> Result unit * World
}.

Section Program.
Context `{L : Lib} `{O : !OsLib}.

(** [os.path.exists(path)] *)
Definition path_exists (path : str) : M bool :=
  fun s => (Ok (os_path_exists path (world s)), s).

(** [os.makedirs(path)] *)
Definition makedirs (path : str) : M unit :=
  fun s =>
    let (r, w) := os_makedirs path (world s) in
    (r, set_world w s).

(** [__init__]: the fields, the two default mirrors for an absent or
    empty [sci_hub_urls], the list of identifiers, the session, and the
    download directory, made when it is not there.  The result is the
    object and its session. *)
Definition init (doi_list_file download_path : str) (proxy : option Proxies)
    (xpath : str) (sci_hub_urls : option (list str))
    : M (SciHubDownloader * list (str * Retry)) :=
  let urls := match sci_hub_urls with
              | Some (u :: us) => u :: us
              | _ => default_scihub_urls
              end in
  dois ← load_doi_list doi_list_file;
  let session := create_session_with_retry 3 (3, 10)%Z [500; 502; 504]%Z in
  there ← path_exists download_path;
  (if negb there then makedirs download_path else mret tt);;
  mret ({| doi_list_file := doi_list_file; download_path := download_path;
           proxy := proxy; xpath := xpath; scihub_urls := urls;
           doilist := dois |}, session).

(** The block under [if __name__ == "__main__"]. *)
Definition main : M unit :=
  made ← init (lit "D:/vscode/pysapce/doi_list.txt")
              (lit "D:/vscode/pysapce/downloads") None default_xpath None;
  run (fst made).

End Program.

(** ** A scripted library

    An instance of [Lib] answering from tables, to run the model on
    concrete inputs. *)

Definition blit (s : string) : bytes := list_byte_of_string s.
Arguments blit s%_string.

Definition text_of (b : bytes) : str := List.map Byte.to_N b.

Fixpoint str_eqb (a b : str) : bool :=
  match a, b with
  | [], [] => true
  | x :: a', y :: b' => (x =? y) && str_eqb a' b'
  | _, _ => false
  end.

Fixpoint digits_value (acc : Z) (s : str) : option Z :=
  match s with
  | [] => Some acc
  | c :: rest =>
      if (48 <=? c) && (c <=? 57)
      then digits_value (10 * acc + Z.of_N (c - 48))%Z rest
      else None
  end.

(** Stands in for [int] on the scripted inputs: ASCII digits only. *)
Definition ascii_int (s : str) : option Z :=
  match s with
  | [] => None
  | _ :: _ => digits_value 0%Z s
  end.

(** [after prefix s]: what follows [prefix] in [s], if [s] starts with it. *)
Fixpoint after (prefix s : str) : option str :=
  match prefix with
  | [] => Some s
  | p :: prefix' =>
      match s with
      | [] => None
      | c :: s' => if c =? p then after prefix' s' else None
      end
  end.

Fixpoint until (stop : char) (s : str) : str :=
  match s with
  | [] => []
  | c :: s' => if c =? stop then [] else c :: until stop s'
  end.

(** Stands in for lxml on the scripted pages: an empty body gives no
    document; a body that starts with an embed element gives a document
    whose query result is its src; any other body gives a document
    without a match. *)
Definition scripted_html (b : bytes) : Result (option (list str)) :=
  match b with
  | [] => Ok None
  | _ :: _ =>
      match after (lit "<embed src=") (text_of b) with
      | Some rest => Ok (Some [until 62 rest])
      | None => Ok (Some [])
      end
  end.

(** Stands in for the format [.2f] of [n/1024]: the quotient rounded to
    two decimals, ties to even (what Python prints while the quotient is
    an exact float). *)
Definition kb_2f (n : Z) : str :=
  let a := Z.abs n in
  let q := (a * 100 / 1024)%Z in
  let r := (a * 100 mod 1024)%Z in
  let h := if ((512 <? r) || ((r =? 512) && Z.odd q))%Z then (q + 1)%Z else q in
  (if (n <? 0)%Z then lit "-" else [])
  ++ dec (h / 100) ++ lit "."
  ++ (if (h mod 100 <? 10)%Z then lit "0" else []) ++ dec (h mod 100).

Record Script : Type := {
  (** the answer to a GET, by URL *)
  site : str -> Result Response;
  (** the result of the XPath query on a scripted document *)
  query : list str -> str -> Result (list str);
  (** the text of a file opened for reading, by path *)
  input_files : str -> Result str
}.

Definition scripted (sc : Script) : Lib := {|
  World := nat;
  Root := list str;
  Proxies := unit;
  session_get := fun url _ _ w => (site sc url, S w);
  etree_HTML := scripted_html;
  root_xpath := query sc;
  int_of_str := ascii_int;
  int_error_str := fun s =>
    lit "invalid literal for int() with base 10: '" ++ s ++ lit "'";
  format_kb := fun n => Some (kb_2f n);
  os_path_join := fun a b => a ++ lit "/" ++ b;
  open_wb_error := fun _ _ => None;
  open_read := fun path _ => input_files sc path
|}.

Definition page (status : Z) (body : string) : Response :=
  {| status_code := status; content := blit body;
     headers := fun _ => None; iter_content := fun _ => ([], None) |}.

Definition file_response (status : Z) (content_length : option string)
    (chunks : list bytes) (err : option exn) : Response :=
  {| status_code := status; content := [];
     headers := fun key =>
       if str_eqb key (lit "content-length")
       then option_map lit content_length else None;
     iter_content := fun _ => (chunks, err) |}.

Definition refused : exn := Exc OtherException (lit "connection refused").

Definition broken : exn := Exc OtherException (lit "Connection broken").

(** The scripted network: what each URL answers. *)
Definition demo_site (url : str) : Result Response :=
  if str_eqb url (lit "https://sci-hub.se/10.1000/down") then
    Ok (page 503 "busy")
  else if str_eqb url (lit "https://sci-hub.st/10.1000/down") then
    Ok (page 404 "not found")
  else if str_eqb url (lit "https://sci-hub.se/10.1000/empty") then
    Ok (page 200 "")
  else if str_eqb url (lit "https://sci-hub.se/10.1000/abc456") then
    Ok (page 200 "<html>no paper</html>")
  else if str_eqb url (lit "https://sci-hub.se/10.1000/gone") then
    Ok (page 200 "<embed src=//cdn.example/gone.pdf>")
  else if str_eqb url (lit "https://cdn.example/gone.pdf") then
    Ok (file_response 404 None [] None)
  else if str_eqb url (lit "https://sci-hub.se/10.1000/xyz123") then
    Ok (page 200 "<embed src=//cdn.example/xyz123.pdf>")
  else if str_eqb url (lit "https://cdn.example/xyz123.pdf") then
    Ok (file_response 200 (Some "2048"%string) [blit "%PD"; []; blit "F-1"] None)
  else if str_eqb url (lit "https://sci-hub.se/10.1000/moved") then
    Ok (page 502 "bad gateway")
  else if str_eqb url (lit "https://sci-hub.st/10.1000/moved") then
    Ok (page 200 "<embed src=https://cdn.example/moved.pdf>")
  else if str_eqb url (lit "https://cdn.example/moved.pdf") then
    Ok (file_response 200 None [blit "%PDF-1.7"] None)
  else if str_eqb url (lit "https://sci-hub.se/10.1000/cut") then
    Ok (page 200 "<embed src=//cdn.example/cut.pdf>")
  else if str_eqb url (lit "https://cdn.example/cut.pdf") then
    Ok (file_response 200 (Some "4096"%string) [blit "%PD"] (Some broken))
  else if str_eqb url (lit "https://sci-hub.se/10.1000/badlen") then
    Ok (page 200 "<embed src=http://cdn.example/badlen.pdf>")
  else if str_eqb url (lit "http://cdn.example/badlen.pdf") then
    Ok (file_response 200 (Some "12kB"%string) [blit "%PDF"] None)
  else Raise refused.

Definition demo_input (path : str) : Result str :=
  if str_eqb path (lit "doi_list.txt") then
    Ok (lit "10.1000/xyz123" ++ [13; 10; 32; 9; 10] ++ lit " 10.1000/abc456 "
        ++ [10; 10])
  else Raise (Exc OtherException (lit "No such file or directory")).

Definition demo : Lib :=
  scripted {| site := demo_site; query := fun root _ => Ok root;
              input_files := demo_input |}.

(** The same network queried with an expression that matches nothing. *)
Definition linkless : Lib :=
  scripted {| site := demo_site; query := fun _ _ => Ok [];
              input_files := demo_input |}.

Definition linkless_self : @SciHubDownloader linkless :=
  {| doi_list_file := lit "doi_list.txt"; download_path := lit "downloads";
     proxy := None; xpath := lit "//object/@data";
     scihub_urls := default_scihub_urls; doilist := [] |}.

Definition linkless_start : @State linkless :=
  @Build_State linkless [] [] ∅ 0%nat.

Definition demo_self (dois : list str) : @SciHubDownloader demo :=
  {| doi_list_file := lit "doi_list.txt"; download_path := lit "downloads";
     proxy := None; xpath := default_xpath;
     scihub_urls := default_scihub_urls; doilist := dois |}.

Definition denied : exn := Exc OtherException (lit "Permission denied").

(** Stands in for [os]: the directory downloads is there, others are
    made on request, except under /root. *)
Definition scripted_os (sc : Script) : @OsLib (scripted sc) :=
  @Build_OsLib (scripted sc)
    (fun path _ => str_eqb path (lit "downloads"))
    (fun path (w : nat) =>
       if startswith path (lit "/root") then (Raise denied, w)
       else (Ok tt, S w)).

Definition demo_os : @OsLib demo := scripted_os _.

(** The scripted network with the input file of the script at its path. *)
Definition script_input (path : str) : Result str :=
  if str_eqb path (lit "D:/vscode/pysapce/doi_list.txt") then
    Ok (lit "10.1000/xyz123" ++ [10] ++ lit "10.1000/abc456" ++ [10])
  else Raise (Exc OtherException (lit "No such file or directory")).

Definition desk : Lib :=
  scripted {| site := demo_site; query := fun root _ => Ok root;
              input_files := script_input |}.

Definition desk_os : @OsLib desk := scripted_os _.

Definition desk_start : @State desk := @Build_State desk [] [] ∅ 0%nat.

Definition mirror_se : str := lit "https://sci-hub.se/".
Definition mirror_st : str := lit "https://sci-hub.st/".

Definition demo_start : @State demo :=
  @Build_State demo [] [] ∅ 0%nat.


(** ** Vocabulary of the statements *)

(** No white space at either end. *)
Definition trimmed (m : str) : bool :=
  match m with
  | [] => true
  | c :: _ => negb (isspace c) && negb (isspace (List.last m c))
  end.

(** The characters the class of [sanitize_filename] holds: slash, colon,
    star, question mark, double quote, less-than, greater-than, bar. *)
Definition replaced_chars : list char := [47; 58; 42; 63; 34; 60; 62; 124].

(** [if chunk:] on a chunk of bytes *)
Definition nonempty (chunk : bytes) : bool :=
  match chunk with
  | [] => false
  | _ :: _ => true
  end.

(** The first letter of every line [download] prints before its last
    one: E (69) or D (68). *)
Definition starts_E_or_D (msg : str) : bool :=
  match msg with
  | [] => false
  | c :: _ => (c =? 69) || (c =? 68)
  end.

(** [m] only adds lines to standard output, each starting with E or D. *)
Definition only_reports `{L : Lib} {A} (m : M A) : Prop :=
  forall s, exists out,
    stdout (snd (m s)) = stdout s ++ out
    /\ Forall (fun msg => starts_E_or_D msg = true) out.

(** What the network and the parser answered when a pass for a mirror,
    started in state [s], ended by the exit [x]. *)
Definition exit_cause `{L : Lib} (self : SciHubDownloader)
    (doi scihub_url : str) (s : State) (x : Exit) : Prop :=
  exists req w1,
    session_get (scihub_url ++ doi) false (proxy self) (world s) = (Ok req, w1)
    /\ match x with
       | BadPageStatus => status_code req <> 200%Z
       | Unparsable =>
           status_code req = 200%Z /\ etree_HTML (content req) = Ok None
       | NoLink =>
           status_code req = 200%Z
           /\ exists root,
               etree_HTML (content req) = Ok (Some root)
               /\ root_xpath root (xpath self) = Ok []
       | BadFileStatus =>
           status_code req = 200%Z
           /\ exists root link more req_file w2,
               etree_HTML (content req) = Ok (Some root)
               /\ root_xpath root (xpath self) = Ok (link :: more)
               /\ session_get (ensure_scheme link) true (proxy self) w1
                  = (Ok req_file, w2)
               /\ status_code req_file <> 200%Z
       | Downloaded =>
           status_code req = 200%Z
           /\ exists root link more req_file w2,
               etree_HTML (content req) = Ok (Some root)
               /\ root_xpath root (xpath self) = Ok (link :: more)
               /\ session_get (ensure_scheme link) true (proxy self) w1
                  = (Ok req_file, w2)
               /\ status_code req_file = 200%Z
       end.

(** A line with its end: no LF but the last character. *)
Definition is_line (line : str) : Prop :=
  exists body, ~ In 10 body /\ line = body ++ [10].

(** What may follow the last LF of a text: nothing, or one line with no
    LF at all. *)
Definition is_rest (last : list str) : Prop :=
  last = [] \/ exists line, last = [line] /\ line <> [] /\ ~ In 10 line.

Definition backslash : char := 92.
Definition underscore : char := 95.

(** A character that [sanitize_filename] turns into an underscore or
    leaves as one. *)
Definition to_underscore (c : char) : bool :=
  in_class replaced_chars c || (c =? underscore).

(** The line [download] appends to errlog.txt for an exception. *)
Definition log_line (doi scihub_url : str) (e : exn) : str :=
  doi ++ lit " from " ++ scihub_url ++ lit " - " ++ exc_str e ++ [10].

(** The lines logged for the passes that ended in the except clause, in
    the order of the mirrors. *)
Fixpoint logged (doi : str) (urls : list str) (ends : list Ending) : str :=
  match urls, ends with
  | scihub_url :: urls', Raised e :: ends' =>
      log_line doi scihub_url e ++ logged doi urls' ends'
  | _ :: urls', Exited _ :: ends' => logged doi urls' ends'
  | _, _ => []
  end.


(** [m] leaves every state related by [R] to the state it started in. *)
Definition preserves `{L : Lib} (R : State -> State -> Prop) {A} (m : M A)
    : Prop :=
  forall s, R s (snd (m s)).

Definition same_errlog `{L : Lib} (s s' : State) : Prop :=
  errlog s' = errlog s.


(** The object [__init__] builds from its arguments and the text of the
    input file. *)
Definition built_from `{L : Lib} (list_file dir : str)
    (proxies : option Proxies) (expr : str) (sci_hub_urls : option (list str))
    (raw : str) (self : SciHubDownloader) : Prop :=
  doi_list_file self = list_file
  /\ download_path self = dir
  /\ proxy self = proxies
  /\ xpath self = expr
  /\ doilist self = List.map strip (readlines (universal_newlines raw))
  /\ scihub_urls self <> []
  /\ (sci_hub_urls = None \/ sci_hub_urls = Some [] ->
      scihub_urls self = default_scihub_urls)
  /\ (forall u us, sci_hub_urls = Some (u :: us) -> scihub_urls self = u :: us).

(** * Theorems *)

(** ** Strings *)

Lemma startswith_iff (s prefix : str) :
  startswith s prefix = true <-> exists rest, s = prefix ++ rest.
Proof.
  revert s; induction prefix as [|p prefix IH]; intros s; simpl.
  - split; [intros _; exists s; reflexivity | reflexivity].
  - destruct s as [|c s]; simpl.
    + split; [discriminate | intros [rest H]; discriminate].
    + rewrite andb_true_iff, N.eqb_eq, IH. split.
      * intros [-> [rest ->]]. exists rest; reflexivity.
      * intros [rest H]. injection H as -> ->. split; [reflexivity | eauto].
Qed.

Lemma lstrip_split (s : str) :
  exists pre, s = pre ++ lstrip s /\ forallb isspace pre = true.
Proof.
  induction s as [|c s [pre [E F]]]; simpl.
  - exists []; split; reflexivity.
  - destruct (isspace c) eqn:Hc.
    + exists (c :: pre); simpl. rewrite Hc, F, <- E. split; reflexivity.
    + exists []; split; reflexivity.
Qed.

Lemma lstrip_head (s : str) :
  match lstrip s with
  | [] => True
  | c :: _ => isspace c = false
  end.
Proof.
  induction s as [|c s IH]; simpl; [exact I|].
  destruct (isspace c) eqn:Hc; [exact IH | exact Hc].
Qed.

Lemma lstrip_all_space (s : str) :
  forallb isspace s = true -> lstrip s = [].
Proof.
  induction s as [|c s IH]; simpl; [reflexivity|].
  intros H; apply andb_true_iff in H as [Hc Hs]. rewrite Hc; auto.
Qed.

Lemma forallb_rev {A} (f : A -> bool) (l : list A) :
  forallb f (rev l) = forallb f l.
Proof.
  induction l as [|x l IH]; simpl; [reflexivity|].
  rewrite forallb_app, IH; simpl. rewrite andb_true_r, andb_comm. reflexivity.
Qed.

(** [strip] removes a run of white space at each end and leaves a string
    that starts and ends with other characters (or is empty). *)
Lemma strip_spec (s : str) :
  exists pre post,
    s = pre ++ strip s ++ post
    /\ forallb isspace pre = true
    /\ forallb isspace post = true
    /\ trimmed (strip s) = true.
Proof.
  destruct (lstrip_split s) as [pre [E F]].
  destruct (lstrip_split (rev (lstrip s))) as [pre' [E' F']].
  exists pre, (rev pre'). unfold strip, rstrip.
  assert (Em : lstrip s = rev (lstrip (rev (lstrip s))) ++ rev pre').
  { rewrite <- rev_app_distr, <- E', rev_involutive. reflexivity. }
  repeat split.
  - rewrite <- Em. exact E.
  - exact F.
  - rewrite forallb_rev. exact F'.
  - pose proof (lstrip_head (rev (lstrip s))) as Hlast.
    pose proof (lstrip_head s) as Hfirst.
    destruct (lstrip (rev (lstrip s))) as [|c r] eqn:Er; [reflexivity|].
    simpl in Em |- *. unfold trimmed.
    destruct (rev r ++ [c]) as [|c0 r0] eqn:Ec.
    { destruct (rev r); discriminate. }
    rewrite <- Ec, last_last, Hlast.
    rewrite Em in Hfirst; simpl in Hfirst. rewrite Hfirst. reflexivity.
Qed.

Lemma strip_all_space (s : str) :
  forallb isspace s = true -> strip s = [].
Proof.
  intros H. unfold strip, rstrip. rewrite (lstrip_all_space s H). reflexivity.
Qed.

Lemma readlines_from_concat (cur text : str) :
  concat (readlines_from cur text) = rev cur ++ text.
Proof.
  revert cur; induction text as [|c rest IH]; intros cur; simpl.
  - destruct cur; simpl; rewrite ?app_nil_r; reflexivity.
  - destruct (c =? 10); simpl; rewrite IH; simpl;
      rewrite <- ?app_assoc; reflexivity.
Qed.

(** The lines of a text, put end to end, are the text. *)
Lemma readlines_concat (text : str) : concat (readlines text) = text.
Proof. apply readlines_from_concat. Qed.

Lemma readlines_from_shape (cur text : str) :
  ~ In 10 cur ->
  exists lines last,
    readlines_from cur text = lines ++ last
    /\ Forall is_line lines /\ is_rest last.
Proof.
  revert cur; induction text as [|c rest IH]; intros cur Hcur; simpl.
  - exists []. destruct cur as [|c0 cur'] eqn:E.
    + exists []. repeat split; [constructor | left; reflexivity].
    + exists [rev (c0 :: cur')]. repeat split; [constructor|].
      right. exists (rev (c0 :: cur')). repeat split.
      * simpl. destruct (rev cur'); discriminate.
      * rewrite <- in_rev. exact Hcur.
  - destruct (N.eqb_spec c 10) as [->|Hc].
    + destruct (IH [] (fun H => H)) as [lines [last [E [F R]]]].
      exists ((rev cur ++ [10]) :: lines), last. rewrite E.
      repeat split; [|exact R]. constructor; [|exact F].
      exists (rev cur). split; [|reflexivity].
      rewrite <- in_rev. exact Hcur.
    + apply IH. intros [H|H]; [congruence | exact (Hcur H)].
Qed.

(** The lines of a text: each ends with its LF and holds no other; only
    what follows the last LF, if anything does, is a line without one. *)
Lemma readlines_shape (text : str) :
  exists lines last,
    readlines text = lines ++ last /\ Forall is_line lines /\ is_rest last.
Proof. apply readlines_from_shape. intros []. Qed.

(** ** [ensure_scheme] *)

(** C7. For every string [url]: when [url] starts with the four
    characters http, [ensure_scheme] returns it unchanged; when it does
    not, [ensure_scheme] returns https: followed by [url]. *)
Theorem ensure_scheme_spec (url : str) :
  ((exists rest, url = lit "http" ++ rest) -> ensure_scheme url = url)
  /\ (~ (exists rest, url = lit "http" ++ rest) ->
      ensure_scheme url = lit "https:" ++ url).
Proof.
  unfold ensure_scheme.
  destruct (startswith url (lit "http")) eqn:E; cbn [negb]; split; intros H.
  - reflexivity.
  - exfalso. apply H, startswith_iff, E.
  - apply startswith_iff in H. congruence.
  - reflexivity.
Qed.

Lemma ensure_scheme_examples :
  ensure_scheme (lit "//cdn.example/xyz123.pdf") = lit "https://cdn.example/xyz123.pdf"
  /\ ensure_scheme (lit "http://cdn.example/a.pdf") = lit "http://cdn.example/a.pdf"
  /\ ensure_scheme (lit "https://cdn.example/a.pdf") = lit "https://cdn.example/a.pdf"
  /\ ensure_scheme (lit "/downloads/a.pdf") = lit "https:/downloads/a.pdf"
  /\ ensure_scheme (lit "httpfoo") = lit "httpfoo".
Proof. repeat split. Qed.

(** ** [sanitize_filename] *)

Lemma sanitize_class : class_members sanitize_class_body = replaced_chars.
Proof. reflexivity. Qed.

Lemma in_class_In (cls : list char) (c : char) :
  in_class cls c = true <-> In c cls.
Proof.
  unfold in_class. rewrite existsb_exists. split.
  - intros [x [Hx E]]. apply N.eqb_eq in E. subst. exact Hx.
  - intros H. exists c. split; [exact H | apply N.eqb_refl].
Qed.

Lemma in_class_not_In (cls : list char) (c : char) :
  in_class cls c = false <-> ~ In c cls.
Proof.
  rewrite <- in_class_In. destruct (in_class cls c); split; congruence.
Qed.

Lemma re_sub_class_single (cls : list char) (r : char) (s : str) :
  re_sub_class cls [r] s = List.map (fun c => if in_class cls c then r else c) s.
Proof.
  induction s as [|c s IH]; simpl; [reflexivity|].
  rewrite IH. destruct (in_class cls c); reflexivity.
Qed.

Lemma re_sub_class_fixed (cls : list char) (repl s : str) :
  (forall c, In c s -> ~ In c cls) -> re_sub_class cls repl s = s.
Proof.
  induction s as [|c s IH]; simpl; intros H; [reflexivity|].
  rewrite IH by (intros; apply H; right; assumption).
  rewrite (proj2 (in_class_not_In cls c)) by (apply H; left; reflexivity).
  reflexivity.
Qed.

Lemma re_sub_class_clean (cls : list char) (r : char) (s : str) :
  ~ In r cls -> forall c, In c (re_sub_class cls [r] s) -> ~ In c cls.
Proof.
  intros Hr c. rewrite re_sub_class_single, in_map_iff.
  intros [x [E _]]. destruct (in_class cls x) eqn:Hx.
  - subst; exact Hr.
  - subst; apply in_class_not_In; exact Hx.
Qed.

(** C3, as the code has it.  For every string [doi] the result is a body
    followed by .pdf, where the body has the length of [doi], holds an
    underscore wherever [doi] holds one of slash, colon, star, question
    mark, double quote, less-than, greater-than, bar, and holds the
    character of [doi] wherever that is none of these and not a
    backslash; no character of that set is left in the body.  The function
    is not idempotent: applied to its own result it appends .pdf once
    more and changes nothing else. *)
Theorem sanitize_filename_spec (doi : str) :
  exists body,
    sanitize_filename doi = body ++ lit ".pdf"
    /\ length body = length doi
    /\ (forall (i : nat) c, doi !! i = Some c -> In c replaced_chars ->
          body !! i = Some underscore)
    /\ (forall (i : nat) c, doi !! i = Some c -> ~ In c replaced_chars ->
          c <> backslash -> body !! i = Some c)
    /\ (forall c, In c body -> ~ In c replaced_chars)
    /\ sanitize_filename (sanitize_filename doi)
       = sanitize_filename doi ++ lit ".pdf".
Proof.
  exists (re_sub_class replaced_chars (lit "_") doi).
  unfold sanitize_filename. rewrite sanitize_class.
  assert (Hu : ~ In underscore replaced_chars).
  { apply in_class_not_In. reflexivity. }
  split; [reflexivity|]. split; [|split; [|split; [|split]]].
  - change (lit "_") with [underscore].
    rewrite re_sub_class_single. apply length_map.
  - intros i c Hi Hc. change (lit "_") with [underscore].
    rewrite re_sub_class_single, list_lookup_fmap, Hi.
    cbn [fmap option_fmap option_map].
    rewrite (proj2 (in_class_In _ _) Hc). reflexivity.
  - intros i c Hi Hc _. change (lit "_") with [underscore].
    rewrite re_sub_class_single, list_lookup_fmap, Hi.
    cbn [fmap option_fmap option_map].
    rewrite (proj2 (in_class_not_In _ _) Hc). reflexivity.
  - apply re_sub_class_clean. exact Hu.
  - f_equal. apply re_sub_class_fixed.
    intros c Hc. apply in_app_or in Hc as [Hc|Hc].
    + revert c Hc. apply re_sub_class_clean. exact Hu.
    + apply in_class_not_In.
      simpl in Hc. repeat destruct Hc as [<-|Hc]; try reflexivity.
      destruct Hc.
Qed.

(** C3, as the claim states it, fails: a second application changes the
    result, here for the DOI of the specification's own scenario. *)
Lemma sanitize_filename_not_idempotent :
  sanitize_filename (lit "10.1000/xyz123") = lit "10.1000_xyz123.pdf"
  /\ sanitize_filename (sanitize_filename (lit "10.1000/xyz123"))
     = lit "10.1000_xyz123.pdf.pdf"
  /\ sanitize_filename (sanitize_filename (lit "10.1000/xyz123"))
     <> sanitize_filename (lit "10.1000/xyz123").
Proof. repeat split. discriminate. Qed.

(** The backslash is written in the class of the source but read there
    as the escape of the slash: it is not replaced. *)
Lemma sanitize_filename_backslash :
  sanitize_filename (lit "a\b") = lit "a\b.pdf"
  /\ In backslash sanitize_class_body
  /\ ~ In backslash (class_members sanitize_class_body).
Proof.
  split; [reflexivity|]. split; [left; reflexivity|].
  apply in_class_not_In. reflexivity.
Qed.

(** ** The monad *)

Ltac munfold :=
  unfold mbind, M_bind, bind, mret, M_ret, ret, raise, lift, print,
    err_log_write, get, try_except, try_except_class in *.

Section Proofs.
Context `{L : Lib}.

Lemma bind_ok {A B} (m : M A) (k : A -> M B) (s s' : State) (a : A) :
  m s = (Ok a, s') -> (x ← m; k x) s = k a s'.
Proof. intros H. munfold. rewrite H. reflexivity. Qed.

Lemma bind_raise {A B} (m : M A) (k : A -> M B) (s s' : State) (e : exn) :
  m s = (Raise e, s') -> (x ← m; k x) s = (Raise e, s').
Proof. intros H. munfold. rewrite H. reflexivity. Qed.

Lemma get_ok (url : str) (stream : bool) (proxies : option Proxies)
    (s : State) (r : Result Response) (w : World) :
  session_get url stream proxies (world s) = (r, w) ->
  get url stream proxies s = (r, set_world w s).
Proof. intros H. unfold get. rewrite H. reflexivity. Qed.

(** ** One pass of the mirror loop, case by case *)

Section Attempt.
Variables (self : SciHubDownloader) (index : nat) (doi scihub_url : str).
Variables (s : State) (req : Response) (w1 : World).
Hypothesis Hpage :
  session_get (scihub_url ++ doi) false (proxy self) (world s) = (Ok req, w1).

Lemma attempt_bad_page :
  status_code req <> 200%Z ->
  attempt self index doi scihub_url s
  = (Ok BadPageStatus,
     add_stdout (lit "Error downloading " ++ doi
                 ++ lit ": Failed to fetch the webpage from " ++ scihub_url
                 ++ lit ", status code: " ++ dec (status_code req))
       (set_world w1 s)).
Proof.
  intros Hs. apply Z.eqb_neq in Hs. unfold attempt.
  rewrite (bind_ok _ _ _ _ _ (get_ok _ _ _ _ _ _ Hpage)), Hs.
  reflexivity.
Qed.

Hypothesis Hstatus : status_code req = 200%Z.

Lemma attempt_unparsable :
  etree_HTML (content req) = Ok None ->
  attempt self index doi scihub_url s
  = (Ok Unparsable,
     add_stdout (lit "Error downloading " ++ doi
                 ++ lit ": Failed to parse HTML content")
       (set_world w1 s)).
Proof.
  intros Hp. unfold attempt.
  rewrite (bind_ok _ _ _ _ _ (get_ok _ _ _ _ _ _ Hpage)), Hstatus.
  change (negb (200 =? 200)%Z) with false; cbv iota.
  munfold. rewrite Hp. reflexivity.
Qed.

Variable root : Root.
Hypothesis Hroot : etree_HTML (content req) = Ok (Some root).

Lemma attempt_no_link :
  root_xpath root (xpath self) = Ok [] ->
  attempt self index doi scihub_url s
  = (Ok NoLink,
     add_stdout (lit "Error downloading " ++ doi
                 ++ lit ": No download link found")
       (set_world w1 s)).
Proof.
  intros Hx. unfold attempt.
  rewrite (bind_ok _ _ _ _ _ (get_ok _ _ _ _ _ _ Hpage)), Hstatus.
  change (negb (200 =? 200)%Z) with false; cbv iota.
  munfold. rewrite Hroot, Hx. reflexivity.
Qed.

Variables (link : str) (more : list str) (req_file : Response) (w2 : World).
Hypothesis Hlink : root_xpath root (xpath self) = Ok (link :: more).
Hypothesis Hfile :
  session_get (ensure_scheme link) true (proxy self) w1 = (Ok req_file, w2).

Lemma attempt_bad_file :
  status_code req_file <> 200%Z ->
  attempt self index doi scihub_url s
  = (Ok BadFileStatus,
     add_stdout (lit "Error downloading " ++ doi
                 ++ lit ": Failed to retrieve file, status code: "
                 ++ dec (status_code req_file))
       (set_world w2 s)).
Proof.
  intros Hs. apply Z.eqb_neq in Hs. unfold attempt.
  rewrite (bind_ok _ _ _ _ _ (get_ok _ _ _ _ _ _ Hpage)), Hstatus.
  change (negb (200 =? 200)%Z) with false; cbv iota.
  munfold. rewrite Hroot, Hlink. cbn [world set_world].
  rewrite Hfile, Hs. reflexivity.
Qed.

(** Past the two fetches the pass is [get_file_size], then the writing of
    the file, then the last [print]. *)
Lemma attempt_file_ok :
  status_code req_file = 200%Z ->
  attempt self index doi scihub_url s
  = (content_length ← get_file_size req_file index (length (doilist self));
     save_response self req_file (sanitize_filename doi);;
     print (lit "Downloaded " ++ sanitize_filename doi ++ lit " successfully!");;
     mret Downloaded) (set_world w2 (set_world w1 s)).
Proof.
  intros Hs. unfold attempt.
  rewrite (bind_ok _ _ _ _ _ (get_ok _ _ _ _ _ _ Hpage)), Hstatus.
  change (negb (200 =? 200)%Z) with false; cbv iota.
  munfold. rewrite Hroot, Hlink. cbn [world set_world].
  rewrite Hfile, Hs. reflexivity.
Qed.

End Attempt.

(** ** The mirror loop *)

(** One turn of the loop: what [download_from] does with the first
    mirror, by the way the pass for it ends. *)
Lemma download_from_cons (self : SciHubDownloader) (index : nat)
    (doi scihub_url : str) (rest : list str) (s : State) :
  download_from self index doi (scihub_url :: rest) s
  = match attempt self index doi scihub_url s with
    | (Ok x, s') =>
        if is_continue x then download_from self index doi rest s'
        else (Ok tt, s')
    | (Raise e, s') =>
        download_from self index doi rest
          (add_errlog (doi ++ lit " from " ++ scihub_url ++ lit " - "
                       ++ exc_str e ++ [10])
             (add_stdout (lit "Error downloading " ++ doi ++ lit " from "
                          ++ scihub_url ++ lit ": " ++ exc_str e) s'))
    end.
Proof.
  cbn [download_from]. unfold on_exception. munfold.
  destruct (attempt self index doi scihub_url s) as [[x|e] s'];
    [destruct (is_continue x)|]; reflexivity.
Qed.

(** [download] always returns: no exception leaves it. *)
Lemma download_from_returns (self : SciHubDownloader) (index : nat)
    (doi : str) (urls : list str) (s : State) :
  fst (download_from self index doi urls s) = Ok tt.
Proof.
  revert s; induction urls as [|u rest IH]; intros s.
  - reflexivity.
  - rewrite download_from_cons.
    destruct (attempt self index doi u s) as [[x|e] s']; [|apply IH].
    destruct (is_continue x); [apply IH | reflexivity].
Qed.

Lemma download_returns (self : SciHubDownloader) (index : nat) (doi : str)
    (s : State) :
  download self index doi s = (Ok tt, snd (download self index doi s)).
Proof.
  unfold download.
  pose proof (download_from_returns self index doi (scihub_urls self) s) as H.
  destruct (download_from self index doi (scihub_urls self) s); simpl in *.
  congruence.
Qed.

(** One turn of the loop of [run]: whatever [download] met, the next
    identifier is processed. *)
Lemma run_from_cons (self : SciHubDownloader) (index : nat) (doi : str)
    (dois : list str) (s : State) :
  run_from self index (doi :: dois) s
  = run_from self (S index) dois
      (snd (download self index doi
              (add_stdout (lit "Starting download for DOI: " ++ doi) s))).
Proof.
  cbn [run_from]. munfold.
  rewrite download_returns. reflexivity.
Qed.

(** C1. For every identifier, mirror and state in which the mirror is
    reached: a status other than 200 on the page fetch makes [download]
    print one line and go on with the next mirror; no document from the
    parser, no match of the XPath expression, and a status other than 200
    on the file fetch each make it print one line and return at once,
    the mirrors left untried; and [run] then goes on with the next
    identifier. *)
Theorem download_failure_policy (self : SciHubDownloader) (index : nat)
    (doi scihub_url : str) (rest : list str) (s : State) :
  (forall req w1,
      session_get (scihub_url ++ doi) false (proxy self) (world s) = (Ok req, w1) ->
      status_code req <> 200%Z ->
      download_from self index doi (scihub_url :: rest) s
      = download_from self index doi rest
          (add_stdout (lit "Error downloading " ++ doi
                       ++ lit ": Failed to fetch the webpage from " ++ scihub_url
                       ++ lit ", status code: " ++ dec (status_code req))
             (set_world w1 s)))
  /\ (forall req w1,
      session_get (scihub_url ++ doi) false (proxy self) (world s) = (Ok req, w1) ->
      status_code req = 200%Z ->
      etree_HTML (content req) = Ok None ->
      download_from self index doi (scihub_url :: rest) s
      = (Ok tt,
         add_stdout (lit "Error downloading " ++ doi
                     ++ lit ": Failed to parse HTML content")
           (set_world w1 s)))
  /\ (forall req w1 root,
      session_get (scihub_url ++ doi) false (proxy self) (world s) = (Ok req, w1) ->
      status_code req = 200%Z ->
      etree_HTML (content req) = Ok (Some root) ->
      root_xpath root (xpath self) = Ok [] ->
      download_from self index doi (scihub_url :: rest) s
      = (Ok tt,
         add_stdout (lit "Error downloading " ++ doi
                     ++ lit ": No download link found")
           (set_world w1 s)))
  /\ (forall req w1 root link more req_file w2,
      session_get (scihub_url ++ doi) false (proxy self) (world s) = (Ok req, w1) ->
      status_code req = 200%Z ->
      etree_HTML (content req) = Ok (Some root) ->
      root_xpath root (xpath self) = Ok (link :: more) ->
      session_get (ensure_scheme link) true (proxy self) w1 = (Ok req_file, w2) ->
      status_code req_file <> 200%Z ->
      download_from self index doi (scihub_url :: rest) s
      = (Ok tt,
         add_stdout (lit "Error downloading " ++ doi
                     ++ lit ": Failed to retrieve file, status code: "
                     ++ dec (status_code req_file))
           (set_world w2 s)))
  /\ (forall dois s0,
      run_from self index (doi :: dois) s0
      = run_from self (S index) dois
          (snd (download self index doi
                  (add_stdout (lit "Starting download for DOI: " ++ doi) s0)))).
Proof.
  repeat split.
  - intros req w1 Hpage Hs. rewrite download_from_cons.
    rewrite (attempt_bad_page _ _ _ _ _ _ _ Hpage Hs). reflexivity.
  - intros req w1 Hpage Hs Hp. rewrite download_from_cons.
    rewrite (attempt_unparsable _ _ _ _ _ _ _ Hpage Hs Hp). reflexivity.
  - intros req w1 root Hpage Hs Hp Hx. rewrite download_from_cons.
    rewrite (attempt_no_link _ _ _ _ _ _ _ Hpage Hs _ Hp Hx). reflexivity.
  - intros req w1 root link more req_file w2 Hpage Hs Hp Hx Hf Hfs.
    rewrite download_from_cons.
    rewrite (attempt_bad_file _ _ _ _ _ _ _ Hpage Hs _ Hp _ _ _ _ Hx Hf Hfs).
    reflexivity.
  - intros dois s0. apply run_from_cons.
Qed.

(** C2. For every identifier and mirror: when the pass for the mirror
    raises an exception, [download] prints it, appends to errlog.txt the
    line made of the identifier, from, the mirror, a dash, the text of the
    exception and a newline, and goes on with the next mirror; and no
    exception ever leaves [download]. *)
Theorem download_exception_handled (self : SciHubDownloader) (index : nat)
    (doi scihub_url : str) (rest : list str) (s s1 : State) (e : exn) :
  attempt self index doi scihub_url s = (Raise e, s1) ->
  download_from self index doi (scihub_url :: rest) s
  = download_from self index doi rest
      (add_errlog (doi ++ lit " from " ++ scihub_url ++ lit " - "
                   ++ exc_str e ++ [10])
         (add_stdout (lit "Error downloading " ++ doi ++ lit " from "
                      ++ scihub_url ++ lit ": " ++ exc_str e) s1))
  /\ (forall urls s0, fst (download_from self index doi urls s0) = Ok tt).
Proof.
  intros H. split.
  - rewrite download_from_cons, H. reflexivity.
  - intros urls s0. apply download_from_returns.
Qed.

(** C5. For every identifier and mirror whose page is fetched with status
    200 and parsed to a document in which the XPath expression matches
    nothing: [download] returns without an exception, the files and
    errlog.txt are as they were when the mirror was reached, and standard
    output has gained the one line that reports the missing link. *)
Theorem download_no_link (self : SciHubDownloader) (index : nat)
    (doi scihub_url : str) (rest : list str) (s : State)
    (req : Response) (w1 : World) (root : Root) :
  session_get (scihub_url ++ doi) false (proxy self) (world s) = (Ok req, w1) ->
  status_code req = 200%Z ->
  etree_HTML (content req) = Ok (Some root) ->
  root_xpath root (xpath self) = Ok [] ->
  exists s',
    download_from self index doi (scihub_url :: rest) s = (Ok tt, s')
    /\ files s' = files s
    /\ errlog s' = errlog s
    /\ stdout s' = stdout s ++ [lit "Error downloading " ++ doi
                                ++ lit ": No download link found"]
    /\ world s' = w1.
Proof.
  intros Hpage Hs Hp Hx. eexists. split.
  - rewrite download_from_cons.
    rewrite (attempt_no_link _ _ _ _ _ _ _ Hpage Hs _ Hp Hx). reflexivity.
  - repeat split.
Qed.

(** ** Writing the file *)

Lemma set_files_same (s : State) : set_files (files s) s = s.
Proof. destruct s; reflexivity. Qed.

Lemma concat_nonempty (chunks : list bytes) :
  concat (List.filter nonempty chunks) = concat chunks.
Proof.
  induction chunks as [|chunk rest IH]; [reflexivity|].
  destruct chunk; simpl; rewrite IH; reflexivity.
Qed.

(** The loop appends every chunk to the open file, in order, and counts
    the bytes on the progress bar. *)
Lemma write_chunks_spec (file_path : str) (chunks : list bytes) (pbar : nat)
    (s : State) (data : bytes) :
  files s !! file_path = Some data ->
  write_chunks file_path chunks pbar s
  = (Ok (pbar + length (concat chunks))%nat,
     set_files (<[file_path := data ++ concat chunks]> (files s)) s).
Proof.
  revert pbar s data; induction chunks as [|chunk rest IH]; intros pbar s data H.
  - simpl. rewrite app_nil_r, Nat.add_0_r, (insert_id _ _ _ H), set_files_same.
    reflexivity.
  - destruct chunk as [|b chunk].
    + simpl. apply IH, H.
    + cbn [write_chunks]. munfold. unfold file_write.
      rewrite (IH _ _ (data ++ b :: chunk)).
      * cbn [files set_files concat]. rewrite insert_alter_eq.
        rewrite length_app, Nat.add_assoc, <- app_assoc. reflexivity.
      * cbn [files set_files]. rewrite lookup_alter_eq, H. reflexivity.
Qed.

(** The with-block of [download], once the file opens: the file holds
    the chunks put end to end, and the result is the exception that ended
    the stream early, if there was one. *)
Lemma save_response_state (self : SciHubDownloader) (req_file : Response)
    (file_name : str) (s : State) (chunks : list bytes) (err : option exn) :
  iter_content req_file 1024 = (chunks, err) ->
  open_wb_error (os_path_join (download_path self) file_name) (world s) = None ->
  save_response self req_file file_name s
  = (match err with Some e => Raise e | None => Ok tt end,
     set_files (<[os_path_join (download_path self) file_name
                  := concat chunks]> (files s)) s).
Proof.
  intros Hit Hopen.
  unfold save_response. rewrite Hit. munfold. unfold open_wb. rewrite Hopen.
  rewrite (write_chunks_spec _ _ _ _ []).
  - cbn [files set_files app]. rewrite insert_insert_eq.
    destruct err; reflexivity.
  - cbn [files set_files]. apply lookup_insert_eq.
Qed.

(** C9. For every response whose [iter_content(1024)] yields [chunks]:
    once the output file is open, the with-block of [download] leaves in
    it exactly the chunks that are not empty, put end to end in order,
    which is the byte sequence of the stream; nothing else changes.  (The
    result is the exception that ended the stream early, if there was
    one.) *)
Theorem save_response_writes_stream (self : SciHubDownloader)
    (req_file : Response) (file_name : str) (s : State)
    (chunks : list bytes) (err : option exn) :
  iter_content req_file 1024 = (chunks, err) ->
  open_wb_error (os_path_join (download_path self) file_name) (world s) = None ->
  save_response self req_file file_name s
  = (match err with Some e => Raise e | None => Ok tt end,
     set_files (<[os_path_join (download_path self) file_name
                  := concat (List.filter nonempty chunks)]> (files s)) s)
  /\ concat (List.filter nonempty chunks) = concat chunks.
Proof.
  intros Hit Hopen. split; [|apply concat_nonempty].
  rewrite concat_nonempty. apply save_response_state; assumption.
Qed.

(** ** [get_file_size] *)

Lemma get_file_size_absent (req_file : Response) (index total : nat) (s : State) :
  headers req_file (lit "content-length") = None ->
  get_file_size req_file index total s
  = (Ok None,
     add_stdout (lit "Downloading paper " ++ dec (Z.of_nat (index + 1))
                 ++ lit "/" ++ dec (Z.of_nat total) ++ lit ", size: unknown") s).
Proof.
  intros H. unfold get_file_size, content_length_header. rewrite H.
  reflexivity.
Qed.

Lemma get_file_size_malformed (req_file : Response) (index total : nat)
    (s : State) (v : str) :
  headers req_file (lit "content-length") = Some v ->
  int_of_str v = None ->
  get_file_size req_file index total s
  = (Raise (Exc ValueError (int_error_str v)), s).
Proof.
  intros H Hi. unfold get_file_size, content_length_header, py_int.
  rewrite H. munfold. rewrite Hi. reflexivity.
Qed.

Lemma get_file_size_overflow (req_file : Response) (index total : nat)
    (s : State) (v : str) (n : Z) :
  headers req_file (lit "content-length") = Some v ->
  int_of_str v = Some n ->
  format_kb n = None ->
  get_file_size req_file index total s
  = (Raise (Exc OverflowError
              (lit "integer division result too large for a float")), s).
Proof.
  intros H Hi Hf.
  unfold get_file_size, content_length_header, py_int, size_in_kb.
  rewrite H. munfold. rewrite Hi, Hf. reflexivity.
Qed.

Lemma get_file_size_known (req_file : Response) (index total : nat)
    (s : State) (v kb : str) (n : Z) :
  headers req_file (lit "content-length") = Some v ->
  int_of_str v = Some n ->
  format_kb n = Some kb ->
  get_file_size req_file index total s
  = (Ok (Some n),
     add_stdout (lit "Downloading paper " ++ dec (Z.of_nat (index + 1))
                 ++ lit "/" ++ dec (Z.of_nat total) ++ lit ", size: " ++ kb
                 ++ lit " KB") s).
Proof.
  intros H Hi Hf.
  unfold get_file_size, content_length_header, py_int, size_in_kb.
  rewrite H. munfold. rewrite Hi, Hf. reflexivity.
Qed.

Lemma get_file_size_None_iff (req_file : Response) (index total : nat)
    (s : State) :
  fst (get_file_size req_file index total s) = Ok None
  <-> headers req_file (lit "content-length") = None.
Proof.
  split.
  - destruct (headers req_file (lit "content-length")) as [v|] eqn:H;
      [|reflexivity].
    destruct (int_of_str v) as [n|] eqn:Hi.
    + destruct (format_kb n) as [kb|] eqn:Hf.
      * rewrite (get_file_size_known _ _ _ _ _ _ _ H Hi Hf). discriminate.
      * rewrite (get_file_size_overflow _ _ _ _ _ _ H Hi Hf). discriminate.
    + rewrite (get_file_size_malformed _ _ _ _ _ H Hi). discriminate.
  - intros H. rewrite (get_file_size_absent _ _ _ _ H). reflexivity.
Qed.

(** C10. [get_file_size] returns [None] exactly when the response has no
    content-length header.  For every response reached by [download] with
    status 200 whose content-length is present and is not an integer for
    [int]: [get_file_size] raises the [ValueError] and prints nothing;
    [download] handles it in its [except] clause (a line on standard
    output, a line in errlog.txt) and goes on with the next mirror, no
    file having been opened. *)
Theorem malformed_content_length (self : SciHubDownloader) (index : nat)
    (doi scihub_url : str) (rest : list str) (s : State)
    (req : Response) (w1 : World) (root : Root) (link : str)
    (more : list str) (req_file : Response) (w2 : World) (v : str) :
  session_get (scihub_url ++ doi) false (proxy self) (world s) = (Ok req, w1) ->
  status_code req = 200%Z ->
  etree_HTML (content req) = Ok (Some root) ->
  root_xpath root (xpath self) = Ok (link :: more) ->
  session_get (ensure_scheme link) true (proxy self) w1 = (Ok req_file, w2) ->
  status_code req_file = 200%Z ->
  headers req_file (lit "content-length") = Some v ->
  int_of_str v = None ->
  (forall total s0,
      get_file_size req_file index total s0
      = (Raise (Exc ValueError (int_error_str v)), s0))
  /\ download_from self index doi (scihub_url :: rest) s
     = download_from self index doi rest
         (add_errlog (doi ++ lit " from " ++ scihub_url ++ lit " - "
                      ++ int_error_str v ++ [10])
            (add_stdout (lit "Error downloading " ++ doi ++ lit " from "
                         ++ scihub_url ++ lit ": " ++ int_error_str v)
               (set_world w2 s)))
  /\ (forall rf i total s0,
        fst (get_file_size rf i total s0) = Ok None
        <-> headers rf (lit "content-length") = None).
Proof.
  intros Hpage Hs Hp Hx Hf Hfs Hh Hi. split; [|split].
  - intros total s0. apply get_file_size_malformed; assumption.
  - rewrite download_from_cons.
    rewrite (attempt_file_ok _ _ _ _ _ _ _ Hpage Hs _ Hp _ _ _ _ Hx Hf Hfs).
    rewrite (bind_raise _ _ _ _ _ (get_file_size_malformed _ _ _ _ _ Hh Hi)).
    destruct s; reflexivity.
  - intros rf i total s0. apply get_file_size_None_iff.
Qed.

(** ** [load_doi_list] *)

(** C8, as the code has it.  For every input file that can be read,
    [load_doi_list] returns one entry per line of the file (the text cut
    after each LF), in the order of the file, each the line without the
    white space at its two ends; no line is left out, so a line of white
    space alone gives an empty entry. *)
Theorem load_doi_list_spec (doi_list_file raw : str) (s : State) :
  open_read doi_list_file (world s) = Ok raw ->
  load_doi_list doi_list_file s
  = (Ok (List.map strip (readlines (universal_newlines raw))), s)
  /\ concat (readlines (universal_newlines raw)) = universal_newlines raw
  /\ (exists lines last,
        readlines (universal_newlines raw) = lines ++ last
        /\ Forall is_line lines /\ is_rest last)
  /\ (forall line, In line (readlines (universal_newlines raw)) ->
        exists pre post,
          line = pre ++ strip line ++ post
          /\ forallb isspace pre = true
          /\ forallb isspace post = true
          /\ trimmed (strip line) = true)
  /\ (forall line, In line (readlines (universal_newlines raw)) ->
        forallb isspace line = true -> strip line = []).
Proof.
  intros H. split; [|split; [|split; [|split]]].
  - unfold load_doi_list. munfold. rewrite H. reflexivity.
  - apply readlines_concat.
  - apply readlines_shape.
  - intros line _. apply strip_spec.
  - intros line _. apply strip_all_space.
Qed.

(** ** What [download] prints *)

Lemma only_reports_ret {A} (a : A) : only_reports (mret a).
Proof. intros s. exists []. rewrite app_nil_r. split; [reflexivity | constructor]. Qed.

Lemma only_reports_raise {A} (e : exn) : only_reports (raise (A:=A) e).
Proof. intros s. exists []. rewrite app_nil_r. split; [reflexivity | constructor]. Qed.

Lemma only_reports_lift {A} (r : Result A) : only_reports (lift r).
Proof. intros s. exists []. rewrite app_nil_r. split; [reflexivity | constructor]. Qed.

Lemma only_reports_print (msg : str) :
  starts_E_or_D msg = true -> only_reports (print msg).
Proof. intros H s. exists [msg]. split; [reflexivity | repeat constructor; exact H]. Qed.

Lemma only_reports_get (url : str) (stream : bool) (proxies : option Proxies) :
  only_reports (get url stream proxies).
Proof.
  intros s. exists []. rewrite app_nil_r. unfold get.
  destruct (session_get url stream proxies (world s)).
  split; [reflexivity | constructor].
Qed.

Lemma only_reports_open_wb (file_path : str) : only_reports (open_wb file_path).
Proof.
  intros s. exists []. rewrite app_nil_r. unfold open_wb.
  destruct (open_wb_error file_path (world s)); split; try reflexivity; constructor.
Qed.

Lemma only_reports_file_write (file_path : str) (chunk : bytes) :
  only_reports (file_write file_path chunk).
Proof. intros s. exists []. rewrite app_nil_r. split; [reflexivity | constructor]. Qed.

Lemma only_reports_bind {A B} (m : M A) (k : A -> M B) :
  only_reports m -> (forall a, only_reports (k a)) -> only_reports (x ← m; k x).
Proof.
  intros Hm Hk s. destruct (Hm s) as [out1 [E1 F1]]. munfold.
  destruct (m s) as [[a|e] s1]; simpl in E1.
  - destruct (Hk a s1) as [out2 [E2 F2]]. exists (out1 ++ out2).
    rewrite E2, E1, app_assoc. split; [reflexivity | apply Forall_app; auto].
  - exists out1. auto.
Qed.

Lemma only_reports_try_except_class {A} (body : M A) (cls : ExcClass)
    (handler : M A) :
  only_reports body -> only_reports handler ->
  only_reports (try_except_class body cls handler).
Proof.
  intros Hb Hh s. destruct (Hb s) as [out1 [E1 F1]]. munfold.
  destruct (body s) as [[a|e] s1]; simpl in E1.
  - exists out1. auto.
  - destruct (exc_class_eqb (exc_class e) cls).
    + destruct (Hh s1) as [out2 [E2 F2]]. exists (out1 ++ out2).
      rewrite E2, E1, app_assoc. split; [reflexivity | apply Forall_app; auto].
    + exists out1. auto.
Qed.

Lemma only_reports_write_chunks (file_path : str) (chunks : list bytes) (pbar : nat) :
  only_reports (write_chunks file_path chunks pbar).
Proof.
  revert pbar; induction chunks as [|chunk rest IH]; intros pbar.
  - apply only_reports_ret.
  - destruct chunk; cbn [write_chunks]; [apply IH|].
    apply only_reports_bind; [apply only_reports_file_write | intros _; apply IH].
Qed.

Lemma only_reports_get_file_size (req_file : Response) (index total : nat) :
  only_reports (get_file_size req_file index total).
Proof.
  unfold get_file_size. apply only_reports_try_except_class.
  - apply only_reports_bind.
    { unfold content_length_header. destruct (headers _ _);
        [apply only_reports_ret | apply only_reports_raise]. }
    intros v. apply only_reports_bind.
    { unfold py_int. destruct (int_of_str v);
        [apply only_reports_ret | apply only_reports_raise]. }
    intros n. apply only_reports_bind.
    { unfold size_in_kb. destruct (format_kb n);
        [apply only_reports_ret | apply only_reports_raise]. }
    intros kb. apply only_reports_bind; [|intros _; apply only_reports_ret].
    apply only_reports_print. reflexivity.
  - apply only_reports_bind; [|intros _; apply only_reports_ret].
    apply only_reports_print. reflexivity.
Qed.

Lemma only_reports_save_response (self : SciHubDownloader)
    (req_file : Response) (file_name : str) :
  only_reports (save_response self req_file file_name).
Proof.
  unfold save_response.
  apply only_reports_bind; [apply only_reports_open_wb|]. intros _.
  destruct (iter_content req_file 1024) as [chunks err].
  apply only_reports_bind; [apply only_reports_write_chunks|]. intros _.
  destruct err; [apply only_reports_raise | apply only_reports_ret].
Qed.

Lemma only_reports_attempt (self : SciHubDownloader) (index : nat)
    (doi scihub_url : str) :
  only_reports (attempt self index doi scihub_url).
Proof.
  unfold attempt.
  apply only_reports_bind; [apply only_reports_get|]. intros req.
  destruct (negb (status_code req =? 200)%Z).
  { apply only_reports_bind; [|intros _; apply only_reports_ret].
    apply only_reports_print. reflexivity. }
  apply only_reports_bind; [apply only_reports_lift|]. intros [root|].
  2:{ apply only_reports_bind; [|intros _; apply only_reports_ret].
      apply only_reports_print. reflexivity. }
  apply only_reports_bind; [apply only_reports_lift|]. intros [|link more].
  { apply only_reports_bind; [|intros _; apply only_reports_ret].
    apply only_reports_print. reflexivity. }
  apply only_reports_bind; [apply only_reports_get|]. intros req_file.
  destruct (negb (status_code req_file =? 200)%Z).
  { apply only_reports_bind; [|intros _; apply only_reports_ret].
    apply only_reports_print. reflexivity. }
  apply only_reports_bind; [apply only_reports_get_file_size|]. intros _.
  apply only_reports_bind; [apply only_reports_save_response|]. intros _.
  apply only_reports_bind; [|intros _; apply only_reports_ret].
  apply only_reports_print. reflexivity.
Qed.

Lemma failed_message_not_report (doi : str) (out : list str) :
  Forall (fun msg => starts_E_or_D msg = true) out ->
  ~ In (failed_message doi) out.
Proof.
  intros F H. rewrite List.Forall_forall in F. apply F in H. discriminate H.
Qed.

(** ** Exceptions inside one pass *)

Lemma attempt_page_raises (self : SciHubDownloader) (index : nat)
    (doi scihub_url : str) (s : State) (e : exn) (w1 : World) :
  session_get (scihub_url ++ doi) false (proxy self) (world s) = (Raise e, w1) ->
  attempt self index doi scihub_url s = (Raise e, set_world w1 s).
Proof.
  intros Hpage. unfold attempt.
  rewrite (bind_raise _ _ _ _ _ (get_ok _ _ _ _ _ _ Hpage)). reflexivity.
Qed.

Lemma attempt_parse_raises (self : SciHubDownloader) (index : nat)
    (doi scihub_url : str) (s : State) (req : Response) (w1 : World) (e : exn) :
  session_get (scihub_url ++ doi) false (proxy self) (world s) = (Ok req, w1) ->
  status_code req = 200%Z ->
  etree_HTML (content req) = Raise e ->
  attempt self index doi scihub_url s = (Raise e, set_world w1 s).
Proof.
  intros Hpage Hstatus Hp. unfold attempt.
  rewrite (bind_ok _ _ _ _ _ (get_ok _ _ _ _ _ _ Hpage)), Hstatus.
  change (negb (200 =? 200)%Z) with false; cbv iota.
  munfold. rewrite Hp. reflexivity.
Qed.

Lemma attempt_xpath_raises (self : SciHubDownloader) (index : nat)
    (doi scihub_url : str) (s : State) (req : Response) (w1 : World)
    (root : Root) (e : exn) :
  session_get (scihub_url ++ doi) false (proxy self) (world s) = (Ok req, w1) ->
  status_code req = 200%Z ->
  etree_HTML (content req) = Ok (Some root) ->
  root_xpath root (xpath self) = Raise e ->
  attempt self index doi scihub_url s = (Raise e, set_world w1 s).
Proof.
  intros Hpage Hstatus Hp Hx. unfold attempt.
  rewrite (bind_ok _ _ _ _ _ (get_ok _ _ _ _ _ _ Hpage)), Hstatus.
  change (negb (200 =? 200)%Z) with false; cbv iota.
  munfold. rewrite Hp, Hx. reflexivity.
Qed.

Lemma attempt_file_raises (self : SciHubDownloader) (index : nat)
    (doi scihub_url : str) (s : State) (req : Response) (w1 : World)
    (root : Root) (link : str) (more : list str) (e : exn) (w2 : World) :
  session_get (scihub_url ++ doi) false (proxy self) (world s) = (Ok req, w1) ->
  status_code req = 200%Z ->
  etree_HTML (content req) = Ok (Some root) ->
  root_xpath root (xpath self) = Ok (link :: more) ->
  session_get (ensure_scheme link) true (proxy self) w1 = (Raise e, w2) ->
  attempt self index doi scihub_url s = (Raise e, set_world w2 s).
Proof.
  intros Hpage Hstatus Hp Hx Hf. unfold attempt.
  rewrite (bind_ok _ _ _ _ _ (get_ok _ _ _ _ _ _ Hpage)), Hstatus.
  change (negb (200 =? 200)%Z) with false; cbv iota.
  munfold. rewrite Hp, Hx. cbn [world set_world]. rewrite Hf.
  reflexivity.
Qed.

(** Every exit has its cause: the labels of [Exit] say what happened. *)
Lemma attempt_exit_cause (self : SciHubDownloader) (index : nat)
    (doi scihub_url : str) (s s1 : State) (x : Exit) :
  attempt self index doi scihub_url s = (Ok x, s1) ->
  exit_cause self doi scihub_url s x.
Proof.
  intros H. unfold exit_cause.
  destruct (session_get (scihub_url ++ doi) false (proxy self) (world s))
    as [[req|e] w1] eqn:Hg.
  2:{ rewrite (attempt_page_raises _ _ _ _ _ _ _ Hg) in H. discriminate. }
  exists req, w1. split; [reflexivity|].
  destruct (Z.eq_dec (status_code req) 200%Z) as [Hs|Hs].
  2:{ rewrite (attempt_bad_page _ _ _ _ _ _ _ Hg Hs) in H.
      injection H as <- _. exact Hs. }
  destruct (etree_HTML (content req)) as [[root|]|e] eqn:Hp.
  - destruct (root_xpath root (xpath self)) as [[|link more]|e] eqn:Hx.
    + rewrite (attempt_no_link _ _ _ _ _ _ _ Hg Hs _ Hp Hx) in H.
      injection H as <- _. eauto.
    + destruct (session_get (ensure_scheme link) true (proxy self) w1)
        as [[req_file|e] w2] eqn:Hf.
      * destruct (Z.eq_dec (status_code req_file) 200%Z) as [Hfs|Hfs].
        -- rewrite (attempt_file_ok _ _ _ _ _ _ _ Hg Hs _ Hp _ _ _ _ Hx Hf Hfs) in H.
           assert (x = Downloaded) as ->.
           { munfold.
             destruct (get_file_size req_file index _ _) as [[?|?] ?];
               [|discriminate].
             destruct (save_response self req_file _ _) as [[?|?] ?];
               [|discriminate].
             injection H as <- _. reflexivity. }
           split; [exact Hs|]. exists root, link, more, req_file, w2. auto.
        -- rewrite (attempt_bad_file _ _ _ _ _ _ _ Hg Hs _ Hp _ _ _ _ Hx Hf Hfs) in H.
           injection H as <- _.
           split; [exact Hs|]. exists root, link, more, req_file, w2. auto.
      * rewrite (attempt_file_raises _ _ _ _ _ _ _ _ _ _ _ _ Hg Hs Hp Hx Hf) in H.
        discriminate.
    + rewrite (attempt_xpath_raises _ _ _ _ _ _ _ _ _ Hg Hs Hp Hx) in H.
      discriminate.
  - rewrite (attempt_unparsable _ _ _ _ _ _ _ Hg Hs Hp) in H.
    injection H as <- _. auto.
  - rewrite (attempt_parse_raises _ _ _ _ _ _ _ _ Hg Hs Hp) in H. discriminate.
Qed.

(** ** When the last line is printed *)

Lemma goes_on_iff (x : Ending) :
  goes_on x = true <-> x = Exited BadPageStatus \/ exists e, x = Raised e.
Proof.
  split.
  - destruct x as [[]|e]; simpl; try discriminate; eauto.
  - intros [->|[e ->]]; reflexivity.
Qed.

Lemma endings_all_go_on (self : SciHubDownloader) (index : nat) (doi : str)
    (urls : list str) (s : State) :
  forallb goes_on (endings self index doi urls s) = true ->
  length (endings self index doi urls s) = length urls.
Proof.
  revert s; induction urls as [|u rest IH]; intros s; [reflexivity|].
  cbn [endings]. destruct (attempt self index doi u s) as [[x|e] s'].
  - cbn [forallb goes_on length]. destruct (is_continue x); [|discriminate].
    intros H. f_equal. apply IH, H.
  - cbn [forallb goes_on length]. intros H. f_equal. apply IH, H.
Qed.

(** What [download_from] adds to standard output holds the last line
    exactly when no pass ended in a return. *)
Lemma download_from_output (self : SciHubDownloader) (index : nat) (doi : str)
    (urls : list str) (s : State) :
  exists out,
    stdout (snd (download_from self index doi urls s)) = stdout s ++ out
    /\ (In (failed_message doi) out
        <-> forallb goes_on (endings self index doi urls s) = true).
Proof.
  revert s; induction urls as [|u rest IH]; intros s.
  - exists [failed_message doi]. split; [reflexivity|].
    split; [reflexivity | intros _; left; reflexivity].
  - rewrite download_from_cons. cbn [endings].
    destruct (only_reports_attempt self index doi u s) as [out1 [E1 F1]].
    pose proof (failed_message_not_report doi out1 F1) as N1.
    destruct (attempt self index doi u s) as [[x|e] s']; cbn [snd] in E1.
    + cbn [forallb goes_on]. destruct (is_continue x).
      * destruct (IH s') as [out2 [E2 I2]]. exists (out1 ++ out2).
        rewrite E2, E1, app_assoc. split; [reflexivity|].
        rewrite in_app_iff, <- I2. tauto.
      * exists out1. split; [exact E1|]. split; [tauto | discriminate].
    + cbn [forallb goes_on andb]. unfold on_exception. munfold. cbn [snd].
      destruct (IH (add_errlog (doi ++ lit " from " ++ u ++ lit " - "
                                ++ exc_str e ++ [10])
                      (add_stdout (lit "Error downloading " ++ doi
                                   ++ lit " from " ++ u ++ lit ": "
                                   ++ exc_str e) s')))
        as [out2 [E2 I2]].
      exists (out1 ++ [lit "Error downloading " ++ doi ++ lit " from " ++ u
                       ++ lit ": " ++ exc_str e] ++ out2).
      rewrite E2. cbn [stdout add_errlog add_stdout]. rewrite E1.
      rewrite <- !app_assoc. split; [reflexivity|].
      rewrite !in_app_iff, <- I2. split; [|tauto].
      intros [H|[H|H]]; [tauto | | exact H].
      destruct H as [H|[]]. discriminate H.
Qed.

(** C6, as the code has it.  For every identifier: the last line, the one
    ending in after trying all Sci-Hub URLs, is printed exactly when no
    pass of the mirror loop ended in a return; and that is so exactly
    when every mirror was tried and the pass for each ended either with a
    status other than 200 on its page fetch or in the except clause,
    after an exception.  (A pass ends by the exit [BadPageStatus] exactly
    when its page fetch answered with a status other than 200.) *)
Theorem failure_message_iff_exhausted (self : SciHubDownloader) (index : nat)
    (doi : str) (s : State) :
  exists out,
    stdout (snd (download self index doi s)) = stdout s ++ out
    /\ (In (failed_message doi) out
        <-> forallb goes_on (endings self index doi (scihub_urls self) s) = true)
    /\ (forallb goes_on (endings self index doi (scihub_urls self) s) = true
        <-> length (endings self index doi (scihub_urls self) s)
            = length (scihub_urls self)
            /\ Forall (fun x => x = Exited BadPageStatus \/ exists e, x = Raised e)
                 (endings self index doi (scihub_urls self) s))
    /\ (forall scihub_url s0,
          (exists s1, attempt self index doi scihub_url s0 = (Ok BadPageStatus, s1))
          <-> exists req w1,
                session_get (scihub_url ++ doi) false (proxy self) (world s0)
                = (Ok req, w1)
                /\ status_code req <> 200%Z).
Proof.
  destruct (download_from_output self index doi (scihub_urls self) s)
    as [out [E I]].
  exists out. split; [exact E|]. split; [exact I|]. split.
  - split.
    + intros H. split; [apply endings_all_go_on, H|].
      apply List.Forall_forall. intros x Hx. apply goes_on_iff.
      rewrite forallb_forall in H. apply H, Hx.
    + intros [_ H]. apply forallb_forall. intros x Hx. apply goes_on_iff.
      rewrite List.Forall_forall in H. apply H, Hx.
  - intros scihub_url s0. split.
    + intros [s1 H]. apply attempt_exit_cause in H. exact H.
    + intros [req [w1 [Hg Hs]]]. eexists.
      apply (attempt_bad_page _ _ _ _ _ _ _ Hg Hs).
Qed.

(** ** The pass that downloads *)

(** Past the two fetches, with a content-length that [int] reads, a file
    that opens and a stream that ends by itself or by an exception: the
    pass prints the size, writes the chunks, and then either prints the
    success line and returns, or raises the exception of the stream with
    the chunks read so far left in the file. *)
Lemma attempt_stream (self : SciHubDownloader) (index : nat)
    (doi scihub_url : str) (s : State) (req : Response) (w1 : World)
    (root : Root) (link : str) (more : list str) (req_file : Response)
    (w2 : World) (v kb : str) (n : Z) (chunks : list bytes) (err : option exn) :
  session_get (scihub_url ++ doi) false (proxy self) (world s) = (Ok req, w1) ->
  status_code req = 200%Z ->
  etree_HTML (content req) = Ok (Some root) ->
  root_xpath root (xpath self) = Ok (link :: more) ->
  session_get (ensure_scheme link) true (proxy self) w1 = (Ok req_file, w2) ->
  status_code req_file = 200%Z ->
  headers req_file (lit "content-length") = Some v ->
  int_of_str v = Some n ->
  format_kb n = Some kb ->
  open_wb_error (os_path_join (download_path self) (sanitize_filename doi)) w2
  = None ->
  iter_content req_file 1024 = (chunks, err) ->
  attempt self index doi scihub_url s
  = match err with
    | None =>
        (Ok Downloaded,
         add_stdout (lit "Downloaded " ++ sanitize_filename doi
                     ++ lit " successfully!")
           (set_files (<[os_path_join (download_path self) (sanitize_filename doi)
                         := concat chunks]> (files s))
              (add_stdout (lit "Downloading paper " ++ dec (Z.of_nat (index + 1))
                           ++ lit "/" ++ dec (Z.of_nat (length (doilist self)))
                           ++ lit ", size: " ++ kb ++ lit " KB")
                 (set_world w2 s))))
    | Some e =>
        (Raise e,
         set_files (<[os_path_join (download_path self) (sanitize_filename doi)
                      := concat chunks]> (files s))
           (add_stdout (lit "Downloading paper " ++ dec (Z.of_nat (index + 1))
                        ++ lit "/" ++ dec (Z.of_nat (length (doilist self)))
                        ++ lit ", size: " ++ kb ++ lit " KB")
              (set_world w2 s)))
    end.
Proof.
  intros Hpage Hs Hp Hx Hf Hfs Hh Hi Hk Hopen Hit.
  rewrite (attempt_file_ok _ _ _ _ _ _ _ Hpage Hs _ Hp _ _ _ _ Hx Hf Hfs).
  rewrite (bind_ok _ _ _ _ _ (get_file_size_known _ _ _ _ _ _ _ Hh Hi Hk)).
  pose proof (save_response_state self req_file (sanitize_filename doi)
                (add_stdout (lit "Downloading paper " ++ dec (Z.of_nat (index + 1))
                             ++ lit "/" ++ dec (Z.of_nat (length (doilist self)))
                             ++ lit ", size: " ++ kb ++ lit " KB")
                   (set_world w2 (set_world w1 s)))
                chunks err Hit Hopen) as Hsave.
  destruct err as [e|].
  - rewrite (bind_raise _ _ _ _ _ Hsave). destruct s; reflexivity.
  - rewrite (bind_ok _ _ _ _ _ Hsave). destruct s; reflexivity.
Qed.

(** A pass that downloads ends [download]: the file is written under the
    sanitized name, the size line and the success line are printed,
    errlog.txt is untouched and the mirrors that remain are not tried. *)
Theorem download_success (self : SciHubDownloader) (index : nat)
    (doi scihub_url : str) (rest : list str) (s : State) (req : Response)
    (w1 : World) (root : Root) (link : str) (more : list str)
    (req_file : Response) (w2 : World) (v kb : str) (n : Z)
    (chunks : list bytes) :
  session_get (scihub_url ++ doi) false (proxy self) (world s) = (Ok req, w1) ->
  status_code req = 200%Z ->
  etree_HTML (content req) = Ok (Some root) ->
  root_xpath root (xpath self) = Ok (link :: more) ->
  session_get (ensure_scheme link) true (proxy self) w1 = (Ok req_file, w2) ->
  status_code req_file = 200%Z ->
  headers req_file (lit "content-length") = Some v ->
  int_of_str v = Some n ->
  format_kb n = Some kb ->
  open_wb_error (os_path_join (download_path self) (sanitize_filename doi)) w2
  = None ->
  iter_content req_file 1024 = (chunks, None) ->
  exists s',
    download_from self index doi (scihub_url :: rest) s = (Ok tt, s')
    /\ files s' = <[os_path_join (download_path self) (sanitize_filename doi)
                    := concat chunks]> (files s)
    /\ errlog s' = errlog s
    /\ stdout s'
       = stdout s
         ++ [lit "Downloading paper " ++ dec (Z.of_nat (index + 1)) ++ lit "/"
             ++ dec (Z.of_nat (length (doilist self))) ++ lit ", size: " ++ kb
             ++ lit " KB";
             lit "Downloaded " ++ sanitize_filename doi ++ lit " successfully!"]
    /\ world s' = w2.
Proof.
  intros Hpage Hs Hp Hx Hf Hfs Hh Hi Hk Hopen Hit. eexists. split.
  - rewrite download_from_cons.
    rewrite (attempt_stream _ _ _ _ _ _ _ _ _ _ _ _ _ _ _ _ _
               Hpage Hs Hp Hx Hf Hfs Hh Hi Hk Hopen Hit).
    reflexivity.
  - cbn [files errlog stdout world add_stdout set_files set_world].
    rewrite <- app_assoc. repeat split.
Qed.

(** A stream that breaks off: the chunks read so far stay in the file,
    the exception is handled like any other and the next mirror is
    tried. *)
Theorem download_stream_interrupted (self : SciHubDownloader) (index : nat)
    (doi scihub_url : str) (rest : list str) (s : State) (req : Response)
    (w1 : World) (root : Root) (link : str) (more : list str)
    (req_file : Response) (w2 : World) (v kb : str) (n : Z)
    (chunks : list bytes) (e : exn) :
  session_get (scihub_url ++ doi) false (proxy self) (world s) = (Ok req, w1) ->
  status_code req = 200%Z ->
  etree_HTML (content req) = Ok (Some root) ->
  root_xpath root (xpath self) = Ok (link :: more) ->
  session_get (ensure_scheme link) true (proxy self) w1 = (Ok req_file, w2) ->
  status_code req_file = 200%Z ->
  headers req_file (lit "content-length") = Some v ->
  int_of_str v = Some n ->
  format_kb n = Some kb ->
  open_wb_error (os_path_join (download_path self) (sanitize_filename doi)) w2
  = None ->
  iter_content req_file 1024 = (chunks, Some e) ->
  download_from self index doi (scihub_url :: rest) s
  = download_from self index doi rest
      (add_errlog (doi ++ lit " from " ++ scihub_url ++ lit " - "
                   ++ exc_str e ++ [10])
         (add_stdout (lit "Error downloading " ++ doi ++ lit " from "
                      ++ scihub_url ++ lit ": " ++ exc_str e)
            (set_files (<[os_path_join (download_path self) (sanitize_filename doi)
                          := concat chunks]> (files s))
               (add_stdout (lit "Downloading paper " ++ dec (Z.of_nat (index + 1))
                            ++ lit "/" ++ dec (Z.of_nat (length (doilist self)))
                            ++ lit ", size: " ++ kb ++ lit " KB")
                  (set_world w2 s))))).
Proof.
  intros Hpage Hs Hp Hx Hf Hfs Hh Hi Hk Hopen Hit.
  rewrite download_from_cons.
  rewrite (attempt_stream _ _ _ _ _ _ _ _ _ _ _ _ _ _ _ _ _
             Hpage Hs Hp Hx Hf Hfs Hh Hi Hk Hopen Hit).
  reflexivity.
Qed.

(** ** No link on any mirror *)

Lemma attempt_without_link (self : SciHubDownloader) (index : nat)
    (doi scihub_url : str) (s : State) :
  (forall root link more, root_xpath root (xpath self) <> Ok (link :: more)) ->
  files (snd (attempt self index doi scihub_url s)) = files s.
Proof.
  intros Hno.
  destruct (session_get (scihub_url ++ doi) false (proxy self) (world s))
    as [[req|e] w1] eqn:Hg.
  2:{ rewrite (attempt_page_raises _ _ _ _ _ _ _ Hg). reflexivity. }
  destruct (Z.eq_dec (status_code req) 200%Z) as [Hs|Hs].
  2:{ rewrite (attempt_bad_page _ _ _ _ _ _ _ Hg Hs). reflexivity. }
  destruct (etree_HTML (content req)) as [[root|]|e] eqn:Hp.
  - destruct (root_xpath root (xpath self)) as [[|link more]|e] eqn:Hx.
    + rewrite (attempt_no_link _ _ _ _ _ _ _ Hg Hs _ Hp Hx). reflexivity.
    + destruct (Hno _ _ _ Hx).
    + rewrite (attempt_xpath_raises _ _ _ _ _ _ _ _ _ Hg Hs Hp Hx). reflexivity.
  - rewrite (attempt_unparsable _ _ _ _ _ _ _ Hg Hs Hp). reflexivity.
  - rewrite (attempt_parse_raises _ _ _ _ _ _ _ _ Hg Hs Hp). reflexivity.
Qed.

(** When the XPath expression finds a link in no document at all,
    [download] writes no file, whatever the mirrors answer, and returns
    without an exception. *)
Theorem download_without_links (self : SciHubDownloader) (index : nat)
    (doi : str) (s : State) :
  (forall root link more, root_xpath root (xpath self) <> Ok (link :: more)) ->
  fst (download self index doi s) = Ok tt
  /\ files (snd (download self index doi s)) = files s.
Proof.
  intros Hno. split; [apply download_from_returns|].
  unfold download. generalize (scihub_urls self) as urls.
  intros urls; revert s; induction urls as [|u rest IH]; intros s.
  - reflexivity.
  - rewrite download_from_cons.
    pose proof (attempt_without_link self index doi u s Hno) as Hf.
    destruct (attempt self index doi u s) as [[x|e] s']; cbn [snd] in Hf.
    + destruct (is_continue x); [rewrite IH; exact Hf | exact Hf].
    + rewrite IH. exact Hf.
Qed.

End Proofs.

(** * The model on the scripted library *)

(** ** C1 *)

(** The four cases of C1 on the scripted network: the mirror that answers
    503 is followed by the next one; the empty page, the page without a
    link and the file answered with 404 end [download] at the first
    mirror. *)
Lemma download_failure_policy_witness :
  @download_from demo (demo_self []) 0 (lit "10.1000/down")
    [mirror_se; mirror_st] demo_start
  = @download_from demo (demo_self []) 0 (lit "10.1000/down") [mirror_st]
      (add_stdout
         (lit "Error downloading 10.1000/down: Failed to fetch the webpage from https://sci-hub.se/, status code: 503")
         (set_world (1%nat : @World demo) demo_start))
  /\ @download_from demo (demo_self []) 0 (lit "10.1000/empty")
       [mirror_se; mirror_st] demo_start
     = (Ok tt,
        add_stdout (lit "Error downloading 10.1000/empty: Failed to parse HTML content")
          (set_world (1%nat : @World demo) demo_start))
  /\ @download_from demo (demo_self []) 0 (lit "10.1000/abc456")
       [mirror_se; mirror_st] demo_start
     = (Ok tt,
        add_stdout (lit "Error downloading 10.1000/abc456: No download link found")
          (set_world (1%nat : @World demo) demo_start))
  /\ @download_from demo (demo_self []) 0 (lit "10.1000/gone")
       [mirror_se; mirror_st] demo_start
     = (Ok tt,
        add_stdout (lit "Error downloading 10.1000/gone: Failed to retrieve file, status code: 404")
          (set_world (2%nat : @World demo) demo_start)).
Proof.
  split; [|split; [|split]].
  - apply (proj1 (download_failure_policy (L:=demo) (demo_self []) 0
                    (lit "10.1000/down") mirror_se [mirror_st] demo_start)
             (page 503 "busy") 1%nat); [reflexivity | discriminate].
  - apply (proj1 (proj2 (download_failure_policy (L:=demo) (demo_self []) 0
                    (lit "10.1000/empty") mirror_se [mirror_st] demo_start))
             (page 200 "") 1%nat); reflexivity.
  - apply (proj1 (proj2 (proj2 (download_failure_policy (L:=demo) (demo_self []) 0
                    (lit "10.1000/abc456") mirror_se [mirror_st] demo_start)))
             (page 200 "<html>no paper</html>") 1%nat ([] : @Root demo));
      reflexivity.
  - apply (proj1 (proj2 (proj2 (proj2 (download_failure_policy (L:=demo)
                    (demo_self []) 0 (lit "10.1000/gone") mirror_se [mirror_st]
                    demo_start))))
             (page 200 "<embed src=//cdn.example/gone.pdf>") 1%nat
             ([lit "//cdn.example/gone.pdf"] : @Root demo)
             (lit "//cdn.example/gone.pdf") []
             (file_response 404 None [] None) 2%nat);
      try reflexivity. discriminate.
Defined.

(** ** C2 *)

(** A mirror that refuses the connection: the exception is printed,
    logged, and the next mirror is tried. *)
Lemma download_exception_handled_witness :
  @attempt demo (demo_self []) 0 (lit "10.1000/none") mirror_se demo_start
  = (Raise refused, set_world (1%nat : @World demo) demo_start)
  /\ @download_from demo (demo_self []) 0 (lit "10.1000/none")
       [mirror_se; mirror_st] demo_start
     = @download_from demo (demo_self []) 0 (lit "10.1000/none") [mirror_st]
         (add_errlog
            (lit "10.1000/none from https://sci-hub.se/ - connection refused" ++ [10])
            (add_stdout
               (lit "Error downloading 10.1000/none from https://sci-hub.se/: connection refused")
               (set_world (1%nat : @World demo) demo_start))).
Proof.
  split; [reflexivity|].
  exact (proj1 (download_exception_handled (L:=demo) (demo_self []) 0
                  (lit "10.1000/none") mirror_se [mirror_st] demo_start
                  (set_world (1%nat : @World demo) demo_start) refused eq_refl)).
Defined.

(** ** C5 *)

(** The page without an embedded link: one line on standard output,
    nothing else. *)
Lemma download_no_link_witness :
  exists s',
    @download_from demo (demo_self []) 0 (lit "10.1000/abc456")
      [mirror_se; mirror_st] demo_start = (Ok tt, s')
    /\ files s' = files demo_start
    /\ errlog s' = errlog demo_start
    /\ stdout s' = stdout demo_start
                   ++ [lit "Error downloading " ++ lit "10.1000/abc456"
                       ++ lit ": No download link found"]
    /\ world s' = 1%nat.
Proof.
  exact (download_no_link (L:=demo) (demo_self []) 0 (lit "10.1000/abc456")
           mirror_se [mirror_st] demo_start
           (page 200 "<html>no paper</html>") 1%nat ([] : @Root demo)
           eq_refl eq_refl eq_refl eq_refl).
Defined.

(** ** C9 *)

(** Three chunks, the middle one empty: the file holds the six bytes of
    the other two. *)
Lemma save_response_writes_stream_witness :
  @save_response demo (demo_self [])
    (file_response 200 (Some "2048"%string) [blit "%PD"; []; blit "F-1"] None)
    (lit "10.1000_xyz123.pdf") demo_start
  = (Ok tt,
     set_files (<[lit "downloads/10.1000_xyz123.pdf" := blit "%PDF-1"]> ∅)
       demo_start).
Proof.
  exact (proj1 (save_response_writes_stream (L:=demo) (demo_self [])
                  (file_response 200 (Some "2048"%string)
                     [blit "%PD"; []; blit "F-1"] None)
                  (lit "10.1000_xyz123.pdf") demo_start
                  [blit "%PD"; []; blit "F-1"] None eq_refl eq_refl)).
Defined.

(** ** C10 *)

(** A content-length of 12kB: the [ValueError] reaches the except clause
    of [download], and the second mirror is tried. *)
Lemma malformed_content_length_witness :
  @download_from demo (demo_self []) 0 (lit "10.1000/badlen")
    [mirror_se; mirror_st] demo_start
  = @download_from demo (demo_self []) 0 (lit "10.1000/badlen") [mirror_st]
      (add_errlog
         (lit "10.1000/badlen from https://sci-hub.se/ - invalid literal for int() with base 10: '12kB'" ++ [10])
         (add_stdout
            (lit "Error downloading 10.1000/badlen from https://sci-hub.se/: invalid literal for int() with base 10: '12kB'")
            (set_world (2%nat : @World demo) demo_start))).
Proof.
  exact (proj1 (proj2 (malformed_content_length (L:=demo) (demo_self []) 0
           (lit "10.1000/badlen") mirror_se [mirror_st] demo_start
           (page 200 "<embed src=http://cdn.example/badlen.pdf>") 1%nat
           ([lit "http://cdn.example/badlen.pdf"] : @Root demo)
           (lit "http://cdn.example/badlen.pdf") []
           (file_response 200 (Some "12kB"%string) [blit "%PDF"] None) 2%nat
           (lit "12kB")
           eq_refl eq_refl eq_refl eq_refl eq_refl eq_refl eq_refl eq_refl))).
Defined.

(** ** C8 *)

(** A file of four lines, the second of white space and the fourth empty:
    four entries. *)
Lemma load_doi_list_spec_witness :
  @load_doi_list demo (lit "doi_list.txt") demo_start
  = (Ok [lit "10.1000/xyz123"; []; lit "10.1000/abc456"; []], demo_start).
Proof.
  exact (proj1 (load_doi_list_spec (L:=demo) (lit "doi_list.txt")
                  (lit "10.1000/xyz123" ++ [13; 10; 32; 9; 10]
                   ++ lit " 10.1000/abc456 " ++ [10; 10])
                  demo_start eq_refl)).
Defined.

(** C8, as the claim states it, fails: the entries are not restricted to
    the lines that are not empty once trimmed.  The file of the scripted
    library gives two empty entries. *)
Lemma load_doi_list_keeps_empty_lines :
  fst (@load_doi_list demo (lit "doi_list.txt") demo_start)
  = Ok [lit "10.1000/xyz123"; []; lit "10.1000/abc456"; []]
  /\ In [] [lit "10.1000/xyz123"; []; lit "10.1000/abc456"; []]
  /\ [lit "10.1000/xyz123"; []; lit "10.1000/abc456"; []]
     <> List.filter (fun doi => negb (str_eqb doi []))
          [lit "10.1000/xyz123"; []; lit "10.1000/abc456"; []].
Proof.
  split; [reflexivity|]. split; [right; left; reflexivity|].
  vm_compute. discriminate.
Qed.

(** ** C6 *)

(** C6, as the claim states it, fails: the last line is printed although
    the page fetch of the first mirror answered 200 (the pass ended in
    the except clause, on the content-length) and the page fetch of the
    second mirror answered with no status at all (the connection was
    refused). *)
Lemma exhausted_without_bad_status :
  In (failed_message (lit "10.1000/badlen"))
    (stdout (snd (@download demo (demo_self []) 0 (lit "10.1000/badlen")
                    demo_start)))
  /\ @endings demo (demo_self []) 0 (lit "10.1000/badlen")
       [mirror_se; mirror_st] demo_start
     = [Raised (Exc ValueError
                  (lit "invalid literal for int() with base 10: '12kB'"));
        Raised refused]
  /\ (exists req w1,
        @session_get demo (mirror_se ++ lit "10.1000/badlen") false None 0%nat
        = (Ok req, w1)
        /\ status_code req = 200%Z)
  /\ (exists w1,
        @session_get demo (mirror_st ++ lit "10.1000/badlen") false None 2%nat
        = (Raise refused, w1))
  /\ ~ Forall (fun x => x = Exited BadPageStatus)
         (@endings demo (demo_self []) 0 (lit "10.1000/badlen")
            [mirror_se; mirror_st] demo_start).
Proof.
  split; [|split; [|split; [|split]]].
  - vm_compute. right; right; left; reflexivity.
  - reflexivity.
  - eexists _, _. split; reflexivity.
  - eexists. reflexivity.
  - intros H. apply Forall_inv in H. discriminate H.
Qed.

(** ** The scenario of the specification

    Two identifiers, the first found on the first mirror, the second
    without a link: one file, one report of the missing link, nothing in
    errlog.txt. *)
Example scenario_two_identifiers :
  @run demo (demo_self [lit "10.1000/xyz123"; lit "10.1000/abc456"]) demo_start
  = (Ok tt,
     @Build_State demo
       [lit "Starting download for DOI: 10.1000/xyz123";
        lit "Downloading paper 1/2, size: 2.00 KB";
        lit "Downloaded 10.1000_xyz123.pdf successfully!";
        lit "Starting download for DOI: 10.1000/abc456";
        lit "Error downloading 10.1000/abc456: No download link found"]
       []
       (<[lit "downloads/10.1000_xyz123.pdf" := blit "%PDF-1"]> ∅)
       3%nat).
Proof. vm_compute. reflexivity. Qed.

(** ** The session

    [create_session_with_retry] with its defaults: one [Retry] object,
    three for each of total, read and connect, a backoff factor of 3/10,
    the statuses 500, 502 and 504, mounted for both schemes. *)
Example default_session_mounts :
  List.map fst default_session = [lit "http://"; lit "https://"]
  /\ Forall (fun mount =>
               retry_total (snd mount) = 3%Z
               /\ retry_read (snd mount) = 3%Z
               /\ retry_connect (snd mount) = 3%Z
               /\ retry_backoff_factor (snd mount) = (3, 10)%Z
               /\ retry_status_forcelist (snd mount) = [500; 502; 504]%Z)
       default_session.
Proof. split; [reflexivity|]. repeat constructor. Qed.

(** A second scenario of the specification: the first mirror answers with
    a status other than 200, the second serves the file (here without a
    content-length): one file, named from the sanitized identifier. *)
Example scenario_second_mirror :
  @download demo (demo_self [lit "10.1000/moved"]) 0 (lit "10.1000/moved")
    demo_start
  = (Ok tt,
     @Build_State demo
       [lit "Error downloading 10.1000/moved: Failed to fetch the webpage from https://sci-hub.se/, status code: 502";
        lit "Downloading paper 1/1, size: unknown";
        lit "Downloaded 10.1000_moved.pdf successfully!"]
       []
       (<[lit "downloads/10.1000_moved.pdf" := blit "%PDF-1.7"]> ∅)
       3%nat).
Proof. vm_compute. reflexivity. Qed.

(** ** The pass that downloads, on the scripted network *)

Lemma download_success_witness :
  exists s',
    @download_from demo (demo_self [lit "10.1000/xyz123"]) 0
      (lit "10.1000/xyz123") [mirror_se; mirror_st] demo_start = (Ok tt, s')
    /\ files s' = <[lit "downloads/10.1000_xyz123.pdf" := blit "%PDF-1"]> ∅
    /\ errlog s' = []
    /\ stdout s' = [lit "Downloading paper 1/1, size: 2.00 KB";
                    lit "Downloaded 10.1000_xyz123.pdf successfully!"]
    /\ world s' = 2%nat.
Proof.
  exact (download_success (L:=demo) (demo_self [lit "10.1000/xyz123"]) 0
           (lit "10.1000/xyz123") mirror_se [mirror_st] demo_start
           (page 200 "<embed src=//cdn.example/xyz123.pdf>") 1%nat
           ([lit "//cdn.example/xyz123.pdf"] : @Root demo)
           (lit "//cdn.example/xyz123.pdf") []
           (file_response 200 (Some "2048"%string)
              [blit "%PD"; []; blit "F-1"] None) 2%nat
           (lit "2048") (lit "2.00") 2048%Z [blit "%PD"; []; blit "F-1"]
           eq_refl eq_refl eq_refl eq_refl eq_refl eq_refl eq_refl eq_refl
           eq_refl eq_refl eq_refl).
Defined.

Lemma download_stream_interrupted_witness :
  @download_from demo (demo_self [lit "10.1000/cut"]) 0 (lit "10.1000/cut")
    [mirror_se; mirror_st] demo_start
  = @download_from demo (demo_self [lit "10.1000/cut"]) 0 (lit "10.1000/cut")
      [mirror_st]
      (add_errlog
         (lit "10.1000/cut from https://sci-hub.se/ - Connection broken" ++ [10])
         (add_stdout
            (lit "Error downloading 10.1000/cut from https://sci-hub.se/: Connection broken")
            (set_files (<[lit "downloads/10.1000_cut.pdf" := blit "%PD"]> ∅)
               (add_stdout (lit "Downloading paper 1/1, size: 4.00 KB")
                  (set_world (2%nat : @World demo) demo_start))))).
Proof.
  exact (download_stream_interrupted (L:=demo) (demo_self [lit "10.1000/cut"]) 0
           (lit "10.1000/cut") mirror_se [mirror_st] demo_start
           (page 200 "<embed src=//cdn.example/cut.pdf>") 1%nat
           ([lit "//cdn.example/cut.pdf"] : @Root demo)
           (lit "//cdn.example/cut.pdf") []
           (file_response 200 (Some "4096"%string) [blit "%PD"] (Some broken))
           2%nat (lit "4096") (lit "4.00") 4096%Z [blit "%PD"] broken
           eq_refl eq_refl eq_refl eq_refl eq_refl eq_refl eq_refl eq_refl
           eq_refl eq_refl eq_refl).
Defined.

(** ** No link on any mirror, on the scripted network *)

Lemma download_without_links_witness :
  fst (@download linkless linkless_self 0 (lit "10.1000/xyz123") linkless_start)
  = Ok tt
  /\ files (snd (@download linkless linkless_self 0 (lit "10.1000/xyz123")
                   linkless_start))
     = ∅.
Proof.
  apply (download_without_links (L:=linkless) linkless_self 0
           (lit "10.1000/xyz123") linkless_start).
  intros root link more H. discriminate H.
Defined.

(** * Further properties *)

(** ** [ensure_scheme], applied again *)

(** The result of [ensure_scheme] always starts with http, so a second
    application changes nothing; a protocol-relative link, one that starts
    with two slashes, becomes an https URL. *)
Theorem ensure_scheme_idempotent (url : str) :
  startswith (ensure_scheme url) (lit "http") = true
  /\ ensure_scheme (ensure_scheme url) = ensure_scheme url
  /\ (forall rest, url = lit "//" ++ rest ->
      ensure_scheme url = lit "https://" ++ rest).
Proof.
  assert (H : startswith (ensure_scheme url) (lit "http") = true).
  { unfold ensure_scheme.
    destruct (startswith url (lit "http")) eqn:E; cbn [negb];
      [exact E | reflexivity]. }
  split; [exact H|]. split.
  - unfold ensure_scheme at 1. rewrite H. reflexivity.
  - intros rest ->. reflexivity.
Qed.

(** ** [sanitize_filename]: which identifiers share a file name *)

Lemma map_eq_Forall2 {A B} (f : A -> B) (a b : list A) :
  List.map f a = List.map f b <-> Forall2 (fun x y => f x = f y) a b.
Proof.
  revert b; induction a as [|x a IH]; intros [|y b]; simpl.
  - split; [constructor | reflexivity].
  - split; [discriminate | intros H; inversion H].
  - split; [discriminate | intros H; inversion H].
  - split.
    + intros H. injection H as Hx Hr. constructor; [exact Hx | apply IH, Hr].
    + intros H. inversion H; subst. f_equal; [assumption | apply IH; assumption].
Qed.

Lemma replaced_or_kept_eq (x y : char) :
  (if in_class replaced_chars x then underscore else x)
  = (if in_class replaced_chars y then underscore else y)
  <-> x = y \/ (to_underscore x = true /\ to_underscore y = true).
Proof.
  unfold to_underscore.
  destruct (in_class replaced_chars x) eqn:Hx,
           (in_class replaced_chars y) eqn:Hy; simpl.
  - split; [auto | reflexivity].
  - split.
    + intros <-. right. split; reflexivity.
    + intros [->|[_ H]]; [congruence|]. apply N.eqb_eq in H. auto.
  - split.
    + intros ->. right. split; reflexivity.
    + intros [->|[H _]]; [congruence|]. apply N.eqb_eq in H. auto.
  - split.
    + intros ->. left. reflexivity.
    + intros [->|[H1 H2]]; [reflexivity|].
      apply N.eqb_eq in H1, H2. congruence.
Qed.

(** Two identifiers get the same file name exactly when they have the
    same length and, place by place, either hold the same character or
    both hold a character that becomes (or is) an underscore.  So distinct
    identifiers can be written to one file. *)
Theorem sanitize_filename_collisions (a b : str) :
  sanitize_filename a = sanitize_filename b
  <-> Forall2 (fun x y => x = y
                          \/ (to_underscore x = true /\ to_underscore y = true))
        a b.
Proof.
  unfold sanitize_filename. rewrite sanitize_class.
  change (lit "_") with [underscore]. rewrite !re_sub_class_single.
  split.
  - intros H. apply app_inv_tail in H. apply map_eq_Forall2 in H.
    eapply Forall2_impl; [exact H|]. intros x y. apply replaced_or_kept_eq.
  - intros H. f_equal. apply map_eq_Forall2.
    eapply Forall2_impl; [exact H|]. intros x y. apply replaced_or_kept_eq.
Qed.

(** For one: the slash and the colon, and an underscore already there. *)
Example sanitize_filename_collision :
  sanitize_filename (lit "10.1000/a:b") = sanitize_filename (lit "10.1000_a/b")
  /\ lit "10.1000/a:b" <> lit "10.1000_a/b".
Proof. split; [reflexivity | discriminate]. Qed.

(** ** The identifiers [load_doi_list] returns *)

Lemma strip_incl (s : str) (c : char) : In c (strip s) -> In c s.
Proof.
  destruct (strip_spec s) as [pre [post [E _]]]. intros H.
  rewrite E. apply in_or_app. right. apply in_or_app. left. exact H.
Qed.

Lemma lstrip_app (s t : str) :
  lstrip (s ++ t) = if forallb isspace s then lstrip t else lstrip s ++ t.
Proof.
  induction s as [|c s IH]; simpl; [reflexivity|].
  destruct (isspace c); simpl; [exact IH | reflexivity].
Qed.

(** White space at the end of a string does not show in its [strip]. *)
Lemma strip_app_space (s : str) (c : char) :
  isspace c = true -> strip (s ++ [c]) = strip s.
Proof.
  intros Hc. unfold strip, rstrip. rewrite lstrip_app.
  destruct (forallb isspace s) eqn:Hs.
  - simpl. rewrite Hc, (lstrip_all_space s Hs). reflexivity.
  - rewrite rev_app_distr. simpl. rewrite Hc. reflexivity.
Qed.

Lemma trimmed_strip (m : str) : trimmed m = true -> strip m = m.
Proof.
  destruct m as [|c r]; [reflexivity|]. unfold trimmed.
  intros H. apply andb_true_iff in H as [Hc Hl].
  apply negb_true_iff in Hc, Hl.
  unfold strip, rstrip. cbn [lstrip]. rewrite Hc.
  assert (E : rev (c :: r)
              = List.last (c :: r) c :: rev (removelast (c :: r))).
  { rewrite (app_removelast_last c (l:=c :: r)) at 1 by discriminate.
    rewrite rev_app_distr. reflexivity. }
  rewrite E. cbn [lstrip]. rewrite Hl, <- E. apply rev_involutive.
Qed.

Lemma universal_newlines_no_CR_upto (n : nat) (raw : str) :
  (length raw <= n)%nat -> ~ In 13 (universal_newlines raw).
Proof.
  revert raw; induction n as [|n IH]; intros raw Hlen.
  - destruct raw; [intros [] | simpl in Hlen; lia].
  - destruct raw as [|c rest]; [intros []|]. simpl in Hlen.
    cbn [universal_newlines]. destruct (N.eqb_spec c 13) as [->|Hc].
    + destruct rest as [|c' rest'].
      * intros [H|[]]; discriminate H.
      * destruct (c' =? 10).
        -- intros [H|H]; [discriminate H|].
           revert H. apply IH. simpl in Hlen. lia.
        -- intros [H|H]; [discriminate H|].
           revert H. apply IH. lia.
    + intros [H|H]; [congruence|]. revert H. apply IH. lia.
Qed.

(** After the translation of line ends no CR is left. *)
Lemma universal_newlines_no_CR (raw : str) : ~ In 13 (universal_newlines raw).
Proof. apply (universal_newlines_no_CR_upto (length raw)). lia. Qed.

Lemma readlines_incl (text line : str) (c : char) :
  In line (readlines text) -> In c line -> In c text.
Proof.
  intros Hl Hc. rewrite <- (readlines_concat text).
  apply in_concat. exists line. split; assumption.
Qed.

Lemma strip_line_no_LF (text line : str) :
  In line (readlines text) -> ~ In 10 (strip line).
Proof.
  intros Hl. destruct (readlines_shape text) as [lines [last [E [F R]]]].
  rewrite E in Hl. apply in_app_or in Hl as [Hl|Hl].
  - rewrite List.Forall_forall in F. destruct (F _ Hl) as [body [Hb ->]].
    rewrite strip_app_space by reflexivity.
    intros H. apply Hb, strip_incl, H.
  - destruct R as [->|[l [-> [_ Hn]]]]; [destruct Hl|].
    destruct Hl as [<-|[]]. intros H. apply Hn, strip_incl, H.
Qed.

Section MoreProofs.
Context `{L : Lib}.

(** Every identifier [load_doi_list] returns is free of line ends (no LF,
    no CR) and of white space at its two ends, so stripping it again
    changes nothing; an empty file gives no identifier. *)
Theorem load_doi_list_entries (doi_list_file raw : str) (s : State) :
  open_read doi_list_file (world s) = Ok raw ->
  exists dois,
    load_doi_list doi_list_file s = (Ok dois, s)
    /\ Forall (fun doi => ~ In 10 doi /\ ~ In 13 doi
                          /\ trimmed doi = true /\ strip doi = doi) dois
    /\ (raw = [] -> dois = []).
Proof.
  intros H. eexists. split; [|split].
  - unfold load_doi_list. munfold. rewrite H. reflexivity.
  - apply List.Forall_forall. intros doi Hd.
    apply in_map_iff in Hd as [line [<- Hl]].
    destruct (strip_spec line) as [pre [post [_ [_ [_ Ht]]]]].
    split; [|split; [|split]].
    + apply (strip_line_no_LF _ _ Hl).
    + intros Hc. apply (universal_newlines_no_CR raw).
      apply (readlines_incl _ line); [exact Hl|]. apply strip_incl, Hc.
    + exact Ht.
    + apply trimmed_strip, Ht.
  - intros ->. reflexivity.
Qed.

(** ** [get_file_size], case by case *)

(** [get_file_size] changes nothing but standard output.  When it
    returns it has printed exactly one line, and it returns [None]
    exactly when the response has no content-length.  When it raises it
    has printed nothing, the header is there, and the exception is the
    [ValueError] of [int] or the [OverflowError] of the division: never a
    [KeyError]. *)
Theorem get_file_size_report (req_file : Response) (index total : nat)
    (s : State) :
  errlog (snd (get_file_size req_file index total s)) = errlog s
  /\ files (snd (get_file_size req_file index total s)) = files s
  /\ world (snd (get_file_size req_file index total s)) = world s
  /\ match fst (get_file_size req_file index total s) with
     | Ok size =>
         (exists line,
             stdout (snd (get_file_size req_file index total s))
             = stdout s ++ [line])
         /\ (size = None <-> headers req_file (lit "content-length") = None)
     | Raise e =>
         snd (get_file_size req_file index total s) = s
         /\ headers req_file (lit "content-length") <> None
         /\ (exc_class e = ValueError \/ exc_class e = OverflowError)
     end.
Proof.
  destruct (headers req_file (lit "content-length")) as [v|] eqn:Hh.
  - destruct (int_of_str v) as [n|] eqn:Hi.
    + destruct (format_kb n) as [kb|] eqn:Hf.
      * rewrite (get_file_size_known _ _ _ _ _ _ _ Hh Hi Hf).
        repeat split; try discriminate. eexists. reflexivity.
      * rewrite (get_file_size_overflow _ _ _ _ _ _ Hh Hi Hf).
        repeat split; try discriminate. right. reflexivity.
    + rewrite (get_file_size_malformed _ _ _ _ _ Hh Hi).
      repeat split; try discriminate. left. reflexivity.
  - rewrite (get_file_size_absent _ _ _ _ Hh).
    repeat split. eexists. reflexivity.
Qed.

(** ** The progress bar *)

(** On an open file the loop over the chunks moves the progress bar by
    exactly the number of bytes it appends to the file, which is the sum
    of the lengths of the chunks; the bytes already in the file stay. *)
Theorem write_chunks_progress (file_path : str) (chunks : list bytes)
    (pbar : nat) (s : State) (data : bytes) :
  files s !! file_path = Some data ->
  exists n written,
    fst (write_chunks file_path chunks pbar s) = Ok n
    /\ files (snd (write_chunks file_path chunks pbar s)) !! file_path
       = Some (data ++ written)
    /\ n = (pbar + length written)%nat
    /\ length written = list_sum (List.map length chunks).
Proof.
  intros H. exists (pbar + length (concat chunks))%nat, (concat chunks).
  rewrite (write_chunks_spec _ _ _ _ _ H). cbn [fst snd files set_files].
  split; [reflexivity|]. split; [apply lookup_insert_eq|].
  split; [reflexivity|].
  clear. induction chunks as [|chunk rest IH]; [reflexivity|].
  cbn [concat List.map list_sum]. rewrite length_app, IH. reflexivity.
Qed.

(** ** What a pass leaves alone

    A relation between the state before and the state after that holds
    across printing, across a request and across writing to one path
    holds across a whole pass for a mirror. *)

Section Frame.
Variable R : State -> State -> Prop.
Hypothesis R_refl : forall s, R s s.
Hypothesis R_trans : forall a b c, R a b -> R b c -> R a c.
Hypothesis R_stdout : forall msg s, R s (add_stdout msg s).
Hypothesis R_world : forall w s, R s (set_world w s).
Variable path : str.
Hypothesis R_files :
  forall fs s, (forall p, p <> path -> fs !! p = files s !! p) ->
               R s (set_files fs s).

Lemma preserves_ret {A} (a : A) : preserves R (mret a).
Proof. intros s. apply R_refl. Qed.

Lemma preserves_raise {A} (e : exn) : preserves R (raise (A:=A) e).
Proof. intros s. apply R_refl. Qed.

Lemma preserves_lift {A} (r : Result A) : preserves R (lift r).
Proof. intros s. apply R_refl. Qed.

Lemma preserves_bind {A B} (m : M A) (k : A -> M B) :
  preserves R m -> (forall a, preserves R (k a)) -> preserves R (x ← m; k x).
Proof.
  intros Hm Hk s. specialize (Hm s). munfold.
  destruct (m s) as [[a|e] s1]; cbn [snd] in *; [|exact Hm].
  eapply R_trans; [exact Hm | apply Hk].
Qed.

Lemma preserves_try_except_class {A} (body : M A) (cls : ExcClass)
    (handler : M A) :
  preserves R body -> preserves R handler ->
  preserves R (try_except_class body cls handler).
Proof.
  intros Hb Hh s. specialize (Hb s). munfold.
  destruct (body s) as [[a|e] s1]; cbn [snd] in *; [exact Hb|].
  destruct (exc_class_eqb (exc_class e) cls); [|exact Hb].
  eapply R_trans; [exact Hb | apply Hh].
Qed.

Lemma preserves_print (msg : str) : preserves R (print msg).
Proof. intros s. apply R_stdout. Qed.

Lemma preserves_get (url : str) (stream : bool) (proxies : option Proxies) :
  preserves R (get url stream proxies).
Proof.
  intros s. unfold get.
  destruct (session_get url stream proxies (world s)). apply R_world.
Qed.

Lemma preserves_open_wb : preserves R (open_wb path).
Proof.
  intros s. unfold open_wb.
  destruct (open_wb_error path (world s)); [apply R_refl|].
  apply R_files. intros p Hp. apply lookup_insert_ne. congruence.
Qed.

Lemma preserves_file_write (chunk : bytes) : preserves R (file_write path chunk).
Proof.
  intros s. apply R_files. intros p Hp. apply lookup_alter_ne. congruence.
Qed.

Lemma preserves_write_chunks (chunks : list bytes) (pbar : nat) :
  preserves R (write_chunks path chunks pbar).
Proof.
  revert pbar; induction chunks as [|chunk rest IH]; intros pbar.
  - apply preserves_ret.
  - destruct chunk; cbn [write_chunks]; [apply IH|].
    apply preserves_bind; [apply preserves_file_write | intros _; apply IH].
Qed.

Lemma preserves_get_file_size (req_file : Response) (index total : nat) :
  preserves R (get_file_size req_file index total).
Proof.
  unfold get_file_size. apply preserves_try_except_class.
  - apply preserves_bind.
    { unfold content_length_header. destruct (headers _ _);
        [apply preserves_ret | apply preserves_raise]. }
    intros v. apply preserves_bind.
    { unfold py_int. destruct (int_of_str v);
        [apply preserves_ret | apply preserves_raise]. }
    intros n. apply preserves_bind.
    { unfold size_in_kb. destruct (format_kb n);
        [apply preserves_ret | apply preserves_raise]. }
    intros kb. apply preserves_bind; [|intros _; apply preserves_ret].
    apply preserves_print.
  - apply preserves_bind; [|intros _; apply preserves_ret].
    apply preserves_print.
Qed.

Lemma preserves_save_response (self : SciHubDownloader) (req_file : Response)
    (file_name : str) :
  os_path_join (download_path self) file_name = path ->
  preserves R (save_response self req_file file_name).
Proof.
  intros Hpath. unfold save_response. rewrite Hpath.
  apply preserves_bind; [apply preserves_open_wb|]. intros _.
  destruct (iter_content req_file 1024) as [chunks err].
  apply preserves_bind; [apply preserves_write_chunks|]. intros _.
  destruct err; [apply preserves_raise | apply preserves_ret].
Qed.

Lemma preserves_attempt (self : SciHubDownloader) (index : nat)
    (doi scihub_url : str) :
  os_path_join (download_path self) (sanitize_filename doi) = path ->
  preserves R (attempt self index doi scihub_url).
Proof.
  intros Hpath. unfold attempt.
  apply preserves_bind; [apply preserves_get|]. intros req.
  destruct (negb (status_code req =? 200)%Z).
  { apply preserves_bind; [apply preserves_print | intros _; apply preserves_ret]. }
  apply preserves_bind; [apply preserves_lift|]. intros [root|].
  2:{ apply preserves_bind; [apply preserves_print | intros _; apply preserves_ret]. }
  apply preserves_bind; [apply preserves_lift|]. intros [|link more].
  { apply preserves_bind; [apply preserves_print | intros _; apply preserves_ret]. }
  apply preserves_bind; [apply preserves_get|]. intros req_file.
  destruct (negb (status_code req_file =? 200)%Z).
  { apply preserves_bind; [apply preserves_print | intros _; apply preserves_ret]. }
  apply preserves_bind; [apply preserves_get_file_size|]. intros _.
  apply preserves_bind; [apply (preserves_save_response _ _ _ Hpath)|]. intros _.
  apply preserves_bind; [apply preserves_print | intros _; apply preserves_ret].
Qed.

End Frame.

(** A pass for a mirror never writes to errlog.txt: only the except
    clause does. *)
Lemma attempt_same_errlog (self : SciHubDownloader) (index : nat)
    (doi scihub_url : str) (s : State) :
  errlog (snd (attempt self index doi scihub_url s)) = errlog s.
Proof.
  apply (preserves_attempt same_errlog) with
    (path := os_path_join (download_path self) (sanitize_filename doi));
    unfold same_errlog; try reflexivity; intros; congruence.
Qed.


(** ** errlog.txt after [download] *)

Lemma download_from_errlog (self : SciHubDownloader) (index : nat) (doi : str)
    (urls : list str) (s : State) :
  errlog (snd (download_from self index doi urls s))
  = errlog s ++ logged doi urls (endings self index doi urls s).
Proof.
  revert s; induction urls as [|u rest IH]; intros s.
  - cbn. rewrite app_nil_r. reflexivity.
  - rewrite download_from_cons. cbn [endings].
    pose proof (attempt_same_errlog self index doi u s) as Ha.
    destruct (attempt self index doi u s) as [[x|e] s']; cbn [snd] in Ha.
    + cbn [logged]. destruct (is_continue x).
      * rewrite IH, Ha. reflexivity.
      * cbn [snd]. rewrite Ha. destruct rest; cbn [logged];
          rewrite app_nil_r; reflexivity.
    + cbn [logged]. unfold on_exception. munfold. cbn [snd].
      rewrite IH. cbn [errlog add_errlog add_stdout]. rewrite Ha.
      unfold log_line. rewrite <- app_assoc. reflexivity.
Qed.

Lemma logged_no_exception (doi : str) (urls : list str) (ends : list Ending) :
  Forall (fun x => forall e, x <> Raised e) ends -> logged doi urls ends = [].
Proof.
  revert ends; induction urls as [|u rest IH]; intros ends H; [reflexivity|].
  destruct ends as [|[x|e] ends]; cbn [logged]; [reflexivity| |].
  - apply IH. apply Forall_inv_tail in H. exact H.
  - apply Forall_inv in H. destruct (H e). reflexivity.
Qed.

(** [download] only ever appends to errlog.txt, and what it appends is one
    line for each pass that ended in the except clause, in the order of
    the mirrors, each made of the identifier, the mirror and the text of
    the exception; with no such pass the log is left as it was. *)
Theorem download_errlog (self : SciHubDownloader) (index : nat) (doi : str)
    (s : State) :
  errlog (snd (download self index doi s))
  = errlog s
    ++ logged doi (scihub_urls self)
         (endings self index doi (scihub_urls self) s)
  /\ (Forall (fun x => forall e, x <> Raised e)
        (endings self index doi (scihub_urls self) s) ->
      errlog (snd (download self index doi s)) = errlog s).
Proof.
  unfold download. split.
  - apply download_from_errlog.
  - intros H. rewrite download_from_errlog, (logged_no_exception _ _ _ H).
    apply app_nil_r.
Qed.

(** ** The files after [download] and [run] *)




(** ** [run] goes through the whole list *)






End MoreProofs.

(** ** [__init__] and the script *)

Section ProgramProofs.
Context `{L : Lib} `{O : !OsLib}.

Lemma init_load_fails (list_file dir : str) (proxies : option Proxies)
    (expr : str) (sci_hub_urls : option (list str)) (s : State) (e : exn) :
  open_read list_file (world s) = Raise e ->
  init list_file dir proxies expr sci_hub_urls s = (Raise e, s).
Proof.
  intros H. unfold init, load_doi_list. munfold. rewrite H. reflexivity.
Qed.

Lemma init_unfold (list_file dir : str) (proxies : option Proxies)
    (expr : str) (sci_hub_urls : option (list str)) (s : State) (raw : str) :
  open_read list_file (world s) = Ok raw ->
  exists self,
    built_from list_file dir proxies expr sci_hub_urls raw self
    /\ init list_file dir proxies expr sci_hub_urls s
       = if os_path_exists dir (world s) then (Ok (self, default_session), s)
         else match os_makedirs dir (world s) with
              | (Ok _, w) => (Ok (self, default_session), set_world w s)
              | (Raise e, w) => (Raise e, set_world w s)
              end.
Proof.
  intros H. eexists. split.
  2:{ unfold init, load_doi_list, path_exists, makedirs. munfold. rewrite H.
      destruct (os_path_exists dir (world s)); cbn [negb]; [reflexivity|].
      destruct (os_makedirs dir (world s)) as [[[]|e] w]; reflexivity. }
  unfold built_from. cbn. repeat split.
  - destruct sci_hub_urls as [[|u us]|]; discriminate.
  - intros [->| ->]; reflexivity.
  - intros u us ->. reflexivity.
Qed.

(** [__init__] reads the list before it looks at the download directory:
    when the input file cannot be opened its exception leaves [__init__]
    with nothing made.  Otherwise the directory is made only when it is
    not there, and when that fails the exception of [os.makedirs] leaves
    [__init__].  In the other cases [__init__] returns an object with
    the arguments as fields, the identifiers of [load_doi_list], a list of
    mirrors that is never empty (the two default mirrors for an absent or
    empty argument) and the session of the default retry settings. *)
Theorem init_spec (list_file dir : str) (proxies : option Proxies)
    (expr : str) (sci_hub_urls : option (list str)) (s : State) :
  (forall e,
      open_read list_file (world s) = Raise e ->
      init list_file dir proxies expr sci_hub_urls s = (Raise e, s))
  /\ (forall raw,
      open_read list_file (world s) = Ok raw ->
      os_path_exists dir (world s) = true ->
      exists self,
        init list_file dir proxies expr sci_hub_urls s
        = (Ok (self, default_session), s)
        /\ built_from list_file dir proxies expr sci_hub_urls raw self)
  /\ (forall raw w,
      open_read list_file (world s) = Ok raw ->
      os_path_exists dir (world s) = false ->
      os_makedirs dir (world s) = (Ok tt, w) ->
      exists self,
        init list_file dir proxies expr sci_hub_urls s
        = (Ok (self, default_session), set_world w s)
        /\ built_from list_file dir proxies expr sci_hub_urls raw self)
  /\ (forall raw e w,
      open_read list_file (world s) = Ok raw ->
      os_path_exists dir (world s) = false ->
      os_makedirs dir (world s) = (Raise e, w) ->
      init list_file dir proxies expr sci_hub_urls s = (Raise e, set_world w s)).
Proof.
  split; [|split; [|split]].
  - intros e H. apply init_load_fails, H.
  - intros raw H Hex.
    destruct (init_unfold list_file dir proxies expr sci_hub_urls s raw H)
      as [self [Hb E]].
    exists self. rewrite E, Hex. split; [reflexivity | exact Hb].
  - intros raw w H Hex Hmk.
    destruct (init_unfold list_file dir proxies expr sci_hub_urls s raw H)
      as [self [Hb E]].
    exists self. rewrite E, Hex, Hmk. split; [reflexivity | exact Hb].
  - intros raw e w H Hex Hmk.
    destruct (init_unfold list_file dir proxies expr sci_hub_urls s raw H)
      as [self [Hb E]].
    rewrite E, Hex, Hmk. reflexivity.
Qed.


End ProgramProofs.

(** * Further properties, on the scripted library *)

Lemma load_doi_list_entries_witness :
  exists dois,
    @load_doi_list demo (lit "doi_list.txt") demo_start = (Ok dois, demo_start)
    /\ Forall (fun doi => ~ In 10 doi /\ ~ In 13 doi
                          /\ trimmed doi = true /\ strip doi = doi) dois
    /\ (lit "10.1000/xyz123" ++ [13; 10; 32; 9; 10] ++ lit " 10.1000/abc456 "
        ++ [10; 10] = [] -> dois = []).
Proof.
  exact (load_doi_list_entries (L:=demo) (lit "doi_list.txt")
           (lit "10.1000/xyz123" ++ [13; 10; 32; 9; 10]
            ++ lit " 10.1000/abc456 " ++ [10; 10])
           demo_start eq_refl).
Defined.

(** A file that holds one byte: three chunks, one of them empty, add three
    bytes and move the progress bar from 0 to 3. *)
Lemma write_chunks_progress_witness :
  exists n written,
    fst (@write_chunks demo (lit "downloads/a.pdf")
           [blit "PD"; []; blit "F"] 0
           (set_files (<[lit "downloads/a.pdf" := blit "%"]> ∅) demo_start))
    = Ok n
    /\ files (snd (@write_chunks demo (lit "downloads/a.pdf")
                     [blit "PD"; []; blit "F"] 0
                     (set_files (<[lit "downloads/a.pdf" := blit "%"]> ∅)
                        demo_start)))
       !! lit "downloads/a.pdf"
       = Some (blit "%" ++ written)
    /\ n = (0 + length written)%nat
    /\ length written
       = list_sum (List.map length [blit "PD"; []; blit "F"]).
Proof.
  exact (write_chunks_progress (L:=demo) (lit "downloads/a.pdf")
           [blit "PD"; []; blit "F"] 0
           (set_files (<[lit "downloads/a.pdf" := blit "%"]> ∅) demo_start)
           (blit "%") eq_refl).
Defined.


(** Two passes that end in the except clause: two lines in errlog.txt. *)
Lemma download_errlog_witness :
  errlog (snd (@download demo (demo_self []) 0 (lit "10.1000/badlen")
                 demo_start))
  = lit "10.1000/badlen from https://sci-hub.se/ - invalid literal for int() with base 10: '12kB'"
    ++ [10]
    ++ lit "10.1000/badlen from https://sci-hub.st/ - connection refused"
    ++ [10].
Proof.
  rewrite (proj1 (download_errlog (L:=demo) (demo_self []) 0
                    (lit "10.1000/badlen") demo_start)).
  reflexivity.
Defined.

(** [__init__] with the directory there, and with a directory to make. *)
Lemma init_spec_witness :
  (exists self,
      @init demo demo_os (lit "doi_list.txt") (lit "downloads") None
        default_xpath None demo_start
      = (Ok (self, default_session), demo_start)
      /\ built_from (lit "doi_list.txt") (lit "downloads") None default_xpath
           None
           (lit "10.1000/xyz123" ++ [13; 10; 32; 9; 10]
            ++ lit " 10.1000/abc456 " ++ [10; 10]) self)
  /\ @init demo demo_os (lit "doi_list.txt") (lit "/root/out") None
       default_xpath (Some []) demo_start
     = (Raise denied, demo_start).
Proof.
  split.
  - exact (proj1 (proj2 (init_spec (L:=demo) (O:=demo_os) (lit "doi_list.txt")
             (lit "downloads") None default_xpath None demo_start))
             _ eq_refl eq_refl).
  - exact (proj2 (proj2 (proj2 (init_spec (L:=demo) (O:=demo_os)
             (lit "doi_list.txt") (lit "/root/out") None default_xpath
             (Some []) demo_start)))
             (lit "10.1000/xyz123" ++ [13; 10; 32; 9; 10]
              ++ lit " 10.1000/abc456 " ++ [10; 10])
             denied 0%nat eq_refl eq_refl eq_refl).
Defined.


(** The script on the scripted network: the directory is made, the first
    identifier is downloaded, the second has no link. *)
Example main_on_the_desk :
  @main desk desk_os desk_start
  = (Ok tt,
     @Build_State desk
       [lit "Starting download for DOI: 10.1000/xyz123";
        lit "Downloading paper 1/2, size: 2.00 KB";
        lit "Downloaded 10.1000_xyz123.pdf successfully!";
        lit "Starting download for DOI: 10.1000/abc456";
        lit "Error downloading 10.1000/abc456: No download link found"]
       []
       (<[lit "D:/vscode/pysapce/downloads/10.1000_xyz123.pdf"
          := blit "%PDF-1"]> ∅)
       4%nat).
Proof. vm_compute. reflexivity. Qed.
